(** * beat-polymarket: the majority-accuracy evaluator and the quote summarizer

    A shallow embedding of [payout_calc.py] (the interactive "majority is
    right 90%" evaluator) and of the classification and quote-resolution
    part of [pull_30day.py], with the properties its specification states.

    Python's [float] is IEEE 754 binary64; it is embedded as Rocq's primitive
    [float], whose operations are the same binary64 operations (round to
    nearest, ties to even).  Python comparisons on floats are the IEEE
    comparisons: they are all [false] as soon as one side is NaN. *)

From Stdlib Require Import ZArith Floats Bool List String Ascii Lia.
From stdpp Require Import gmap strings list pretty.

Set Warnings "-inexact-float,-register-all".
Local Open Scope Z_scope.

(** ** Binary64 values in their order

    The comparison of two non-NaN binary64 values is the lexicographic
    comparison of their keys: the class (negative infinity, negative,
    zero, positive, positive infinity), then exponent and mantissa, both
    negated for a negative value. *)

Module SF.

Definition key (x : spec_float) : option (Z * Z * Z) :=
  match x with
  | S754_nan => None
  | S754_infinity true => Some (-2, 0, 0)
  | S754_infinity false => Some (2, 0, 0)
  | S754_zero _ => Some (0, 0, 0)
  | S754_finite true m e => Some (-1, - e, Z.neg m)
  | S754_finite false m e => Some (1, e, Z.pos m)
  end.

Definition lex3 (a b : Z * Z * Z) : comparison :=
  let '(a1, a2, a3) := a in
  let '(b1, b2, b3) := b in
  match a1 ?= b1 with
  | Eq => match a2 ?= b2 with
          | Eq => a3 ?= b3
          | c => c
          end
  | c => c
  end.

Definition lt3 (a b : Z * Z * Z) : Prop :=
  let '(a1, a2, a3) := a in
  let '(b1, b2, b3) := b in
  a1 < b1 \/ (a1 = b1 /\ (a2 < b2 \/ (a2 = b2 /\ a3 < b3))).

Definition fkey (x : float) : option (Z * Z * Z) := key (Prim2SF x).

(** A value that is zero or finite. *)
Definition finite (x : spec_float) : bool :=
  match x with
  | S754_zero _ | S754_finite _ _ _ => true
  | _ => false
  end.

End SF.

(** ** The Python runtime the two scripts rely on *)

Module Py.

(** Exceptions that the modelled code can meet. *)
Inductive exn : Set :=
| ZeroDivisionError
| KeyError
| ValueError
| TypeError
| OverflowError.

(** The outcome of running a Python expression: a value or a raised
    exception. *)
Inductive outcome (A : Type) : Type :=
| Returned (a : A)
| Raised (e : exn).
Arguments Returned {A} a.
Arguments Raised {A} e.

Definition bind {A B : Type} (c : outcome A) (k : A -> outcome B) : outcome B :=
  match c with
  | Returned a => k a
  | Raised e => Raised e
  end.

(** [x / y] on floats: Python raises [ZeroDivisionError] when the divisor
    compares equal to zero (either sign), and divides otherwise. *)
Definition truediv (x y : float) : outcome float :=
  if (y =? 0)%float then Raised ZeroDivisionError else Returned (x / y)%float.

(** Python's rich comparisons on floats, in the source's orientation. *)
Definition gt (x y : float) : bool := (y <? x)%float.
Definition lt (x y : float) : bool := (x <? y)%float.
Definition ge (x y : float) : bool := (y <=? x)%float.
Definition eq (x y : float) : bool := (x =? y)%float.

(** The builtin [max(a, b)]: it keeps [a] unless [b > a]. *)
Definition max (a b : float) : float := if gt b a then b else a.

(** *** [round(x, ndigits)]

    CPython rounds the exact binary value of [x] to [ndigits] decimals,
    ties to even, and returns the binary64 number nearest to that decimal;
    NaN and the infinities round to themselves. *)

(** Nearest integer to [p / q] for [0 <= p] and [0 < q], ties to even. *)
Definition div_half_even (p q : Z) : Z :=
  let d := p / q in
  match 2 * (p mod q) ?= q with
  | Lt => d
  | Gt => d + 1
  | Eq => if Z.even d then d else d + 1
  end.

(** The binary64 number nearest to [(-1)^s * p / q] for [0 <= p], [0 < q]:
    the quotient is taken with 64 extra bits and a sticky bit, and
    [binary_normalize] rounds it to 53 bits, ties to even. *)
Definition nearest_float (s : bool) (p q : Z) : float :=
  let k := 64 + Z.log2_up q in
  let n := Z.shiftl p k in
  let sticky := if n mod q =? 0 then 0 else 1 in
  let m := 2 * (n / q) + sticky in
  SF2Prim (binary_normalize prec emax (if s then - m else m) (- k - 1) s).

Definition round (x : float) (ndigits : nat) : float :=
  match Prim2SF x with
  | S754_finite s m e =>
      let scale := 10 ^ Z.of_nat ndigits in
      if 0 <=? e then x
      else nearest_float s (div_half_even (Z.pos m * scale) (2 ^ (- e))) scale
  | _ => x
  end.

End Py.

#[global] Instance outcome_ret : MRet Py.outcome := @Py.Returned.
#[global] Instance outcome_bind : MBind Py.outcome := fun A B k c => Py.bind c k.

(** ** payout_calc.py *)

Module PayoutCalc.
Import Py.
Local Open Scope float_scope.

(** [@dataclass class Config] with its defaults. *)
Record Config : Set := {
  majority_accuracy : float;
  min_ev : float;
  fee_rate : float
}.

Definition default_config : Config :=
  {| majority_accuracy := 0.90; min_ev := 0.0; fee_rate := 0.0 |}.

(** [_as_prob]: accept 0-1 or 0-100 and normalize to 0-1.  The divisor is
    the constant 100.0, so this division cannot raise. *)
Definition _as_prob (x : float) : float :=
  if gt x 1 then x / 100.0 else x.

Inductive Side : Set := YES | NO | HOLD.

Definition Side_eqb (a b : Side) : bool :=
  match a, b with
  | YES, YES | NO, NO | HOLD, HOLD => true
  | _, _ => false
  end.

(** The local variables of [evaluate_market] when it reaches its [return].
    [chosen_price] and [chosen_q_win] are [None] on HOLD, as in the source;
    [shares], [gross_win_payout] and [fee] are bound only when a side is
    bought. *)
Record Locals : Set := {
  p_yes : float;
  p_no : float;
  q_yes : float;
  ev_per_yes : float;
  ev_per_no : float;
  side : Side;
  chosen_price : option float;
  chosen_q_win : option float;
  shares : option float;
  gross_win_payout : option float;
  fee : option float;
  win_payout : float;
  lose_payout : float;
  ev_dollars : float
}.

(** Lines 33-36: normalize and fix slight mismatches. *)
Definition normalize (yes_pct : float) (no_pct : option float) : float * float :=
  let p_yes := _as_prob yes_pct in
  let p_no := match no_pct with
              | None => 1.0 - p_yes
              | Some n => _as_prob n
              end in
  let p_no := if gt (abs ((p_yes + p_no) - 1.0)) 1e-6 then 1.0 - p_yes else p_no in
  (p_yes, p_no).

(** Lines 38-44: the calibrated probability that YES happens. *)
Definition calibrate (p_yes p_no : float) (cfg : Config) : float :=
  if gt p_yes p_no then majority_accuracy cfg
  else if lt p_yes p_no then 1.0 - majority_accuracy cfg
  else 0.5.

(** Lines 63-70 and 76-81: the purchase of the chosen side at price [c],
    written twice in the source with the same body. *)
Definition buy (sd : Side) (c q_win stake : float) (cfg : Config)
    (p_yes p_no q_yes ev_per_yes ev_per_no : float) : outcome Locals :=
  shares ← (if gt c 0 then truediv stake c else Returned 0.0);
  let gross_win_payout := shares * 1.0 in
  let fee := fee_rate cfg * (gross_win_payout - stake) in
  let win_payout := gross_win_payout - fee in
  let lose_payout := 0.0 in
  let ev_dollars := (q_win * win_payout) + ((1.0 - q_win) * lose_payout) - stake in
  Returned {| p_yes := p_yes; p_no := p_no; q_yes := q_yes;
              ev_per_yes := ev_per_yes; ev_per_no := ev_per_no;
              side := sd;
              chosen_price := Some c; chosen_q_win := Some q_win;
              shares := Some shares;
              gross_win_payout := Some gross_win_payout;
              fee := Some fee;
              win_payout := win_payout; lose_payout := lose_payout;
              ev_dollars := ev_dollars |}.

(** Lines 33-81: everything before the [return]. *)
Definition evaluate_locals (yes_pct : float) (no_pct : option float)
    (stake : float) (cfg : Config) : outcome Locals :=
  let '(p_yes, p_no) := normalize yes_pct no_pct in
  let q_yes := calibrate p_yes p_no cfg in
  let ev_per_yes := q_yes - p_yes in
  let ev_per_no := (1.0 - q_yes) - p_no in
  if lt ev_per_yes (min_ev cfg) && lt ev_per_no (min_ev cfg) then
    Returned {| p_yes := p_yes; p_no := p_no; q_yes := q_yes;
                ev_per_yes := ev_per_yes; ev_per_no := ev_per_no;
                side := HOLD;
                chosen_price := None; chosen_q_win := None;
                shares := None; gross_win_payout := None; fee := None;
                win_payout := 0.0; lose_payout := 0.0; ev_dollars := 0.0 |}
  else if ge ev_per_yes ev_per_no then
    buy YES p_yes q_yes stake cfg p_yes p_no q_yes ev_per_yes ev_per_no
  else
    buy NO p_no (1.0 - q_yes) stake cfg p_yes p_no q_yes ev_per_yes ev_per_no.

(** The dictionary [evaluate_market] returns (lines 83-96).  The keys
    ["side"], ["stake"], ["chosen_price"] and ["ev_dollars"] are the fields
    [r_side], [r_stake], [r_chosen_price] and [r_ev_dollars], and ["ev_per_$"]
    is [ev_per_dollar]. *)
Record Report : Set := {
  question : string;
  p_yes_market : float;
  p_no_market : float;
  q_yes_calibrated : float;
  r_side : Side;
  r_stake : float;
  r_chosen_price : option float;
  win_prob_of_chosen : option float;
  ev_per_dollar : float;
  r_ev_dollars : float;
  win_payout_if_correct : float;
  lose_payout_if_wrong : float
}.

Definition report (question : string) (stake : float) (l : Locals) : Report :=
  {| question := question;
     p_yes_market := round (p_yes l) 4;
     p_no_market := round (p_no l) 4;
     q_yes_calibrated := round (q_yes l) 4;
     r_side := side l;
     r_stake := round stake 2;
     r_chosen_price := option_map (fun c => round c 4) (chosen_price l);
     win_prob_of_chosen := option_map (fun q => round q 4) (chosen_q_win l);
     ev_per_dollar :=
       if negb (Side_eqb (side l) HOLD)
       then round (max (ev_per_yes l) (ev_per_no l)) 4 else 0.0;
     r_ev_dollars := round (ev_dollars l) 2;
     win_payout_if_correct := round (win_payout l) 2;
     lose_payout_if_wrong := round (lose_payout l) 2 |}.

Definition evaluate_market (question : string) (yes_pct : float)
    (no_pct : option float) (stake : float) (cfg : Config) : outcome Report :=
  l ← evaluate_locals yes_pct no_pct stake cfg;
  Returned (report question stake l).

(** *** Notions the specification uses about an evaluation *)

(** The per-dollar EV of the side that was chosen ([None] on HOLD). *)
Definition chosen_ev (l : Locals) : option float :=
  match side l with
  | YES => Some (ev_per_yes l)
  | NO => Some (ev_per_no l)
  | HOLD => None
  end.

(** What lines 63-70 (76-81 for NO) leave in the locals after buying at
    price [c] with win probability [q_win]. *)
Definition bought (l : Locals) (c q_win stake : float) (cfg : Config) : Prop :=
  let sh := if gt c 0 then stake / c else 0.0 in
  chosen_price l = Some c /\
  chosen_q_win l = Some q_win /\
  shares l = Some sh /\
  gross_win_payout l = Some (sh * 1.0) /\
  fee l = Some (fee_rate cfg * (sh * 1.0 - stake)) /\
  win_payout l = sh * 1.0 - fee_rate cfg * (sh * 1.0 - stake) /\
  lose_payout l = 0.0 /\
  ev_dollars l = (q_win * win_payout l) + ((1.0 - q_win) * 0.0) - stake.

(** A dollar amount agrees with [v] to the cent. *)
Definition to_the_cent (x v : float) : bool := lt (abs (x - v)) 0.005.


End PayoutCalc.

(** ** Python values and text *)

Module PyText.
Local Open Scope string_scope.

(** Text is taken to be ASCII: case mapping and whitespace are those of the
    ASCII range, and any other byte is a caseless non-space character. *)

Definition code (c : ascii) : N := N_of_ascii c.

Definition lower_char (c : ascii) : ascii :=
  if ((65 <=? code c) && (code c <=? 90))%N then ascii_of_N (code c + 32) else c.

Definition upper_char (c : ascii) : ascii :=
  if ((97 <=? code c) && (code c <=? 122))%N then ascii_of_N (code c - 32) else c.

(** The characters [str.isspace] accepts in the ASCII range. *)
Definition is_space (c : ascii) : bool :=
  (((9 <=? code c) && (code c <=? 13)) || ((28 <=? code c) && (code c <=? 32)))%N.

(** [s.lower()] *)
Fixpoint lower (s : string) : string :=
  match s with
  | EmptyString => EmptyString
  | String c r => String (lower_char c) (lower r)
  end.

(** [s.capitalize()] *)
Definition capitalize (s : string) : string :=
  match s with
  | EmptyString => EmptyString
  | String c r => String (upper_char c) (lower r)
  end.

Fixpoint lstrip (s : string) : string :=
  match s with
  | EmptyString => EmptyString
  | String c r => if is_space c then lstrip r else s
  end.

Fixpoint rstrip (s : string) : string :=
  match s with
  | EmptyString => EmptyString
  | String c r =>
      match rstrip r with
      | EmptyString => if is_space c then EmptyString else String c EmptyString
      | r' => String c r'
      end
  end.

(** [s.strip()] *)
Definition strip (s : string) : string := rstrip (lstrip s).

(** [s.split(sep)] for a one-character separator: never an empty list. *)
Fixpoint split (sep : ascii) (s : string) : list string :=
  match s with
  | EmptyString => [EmptyString]
  | String c r =>
      if Ascii.eqb c sep then EmptyString :: split sep r
      else match split sep r with
           | h :: t => String c h :: t
           | [] => [String c EmptyString]
           end
  end.

(** [s.startswith(c)] and [s.endswith(c)] for a one-character [c]. *)
Definition startswith (c : ascii) (s : string) : bool :=
  match s with
  | String c' _ => Ascii.eqb c' c
  | EmptyString => false
  end.

Fixpoint endswith (c : ascii) (s : string) : bool :=
  match s with
  | EmptyString => false
  | String c' EmptyString => Ascii.eqb c' c
  | String _ r => endswith c r
  end.

(** [bool(s)] *)
Definition nonempty (s : string) : bool :=
  match s with
  | EmptyString => false
  | String _ _ => true
  end.

End PyText.

Module PyVal.
Import Py PyText.
Local Open Scope string_scope.

(** The values a decoded market record holds: JSON scalars and arrays. *)
Inductive pyval : Type :=
| PNone
| PBool (b : bool)
| PInt (n : Z)
| PFloat (f : float)
| PStr (s : string)
| PList (l : list pyval).

(** Library functions that are used but not modelled operationally:
    [json.loads], [float] on text, and [str] on floats and lists. *)
Class Library : Type := {
  json_loads : string -> outcome pyval;
  float_of_text : string -> outcome float;
  repr : pyval -> string
}.

(** [bool(v)] *)
Definition truthy (v : pyval) : bool :=
  match v with
  | PNone => false
  | PBool b => b
  | PInt n => negb (n =? 0)%Z
  | PFloat f => negb (f =? 0)%float
  | PStr s => nonempty s
  | PList l => match l with [] => false | _ => true end
  end.

(** [a or b] *)
Definition py_or (a b : pyval) : pyval := if truthy a then a else b.

(** [float(n)] for an integer [n]: the nearest binary64 value, or
    [OverflowError]. *)
Definition float_of_int (n : Z) : outcome float :=
  match binary_normalize prec emax n 0 false with
  | S754_infinity _ => Raised OverflowError
  | x => Returned (SF2Prim x)
  end.

Section WithLibrary.
Context `{Library}.

(** [str(v)] *)
Definition str (v : pyval) : string :=
  match v with
  | PNone => "None"
  | PBool true => "True"
  | PBool false => "False"
  | PInt n => pretty n
  | PStr s => s
  | PFloat _ | PList _ => repr v
  end.

(** [float(v)] *)
Definition to_float (v : pyval) : outcome float :=
  match v with
  | PFloat f => Returned f
  | PInt n => float_of_int n
  | PBool b => Returned (if b then 1 else 0)%float
  | PStr s => float_of_text s
  | PNone | PList _ => Raised TypeError
  end.

(** [for x in v]: the items of a list, the characters of a text. *)
Definition items (v : pyval) : outcome (list pyval) :=
  match v with
  | PList l => Returned l
  | PStr s => Returned ((fun c => PStr (String c EmptyString)) <$> list_ascii_of_string s)
  | _ => Raised TypeError
  end.

(** [[float(x) for x in l]]: the first failure is raised. *)
Fixpoint floats (l : list pyval) : outcome (list float) :=
  match l with
  | [] => Returned []
  | x :: r => f ← to_float x; fs ← floats r; Returned (f :: fs)
  end.

End WithLibrary.

End PyVal.

(** ** pull_30day.py *)

Module Pull30day.
Import Py PyText PyVal.
Local Open Scope string_scope.

Definition YES_ALIASES : gset string := {[ "yes"; "y"; "true"; "1" ]}.
Definition NO_ALIASES : gset string := {[ "no"; "n"; "false"; "0" ]}.

(** A decoded market record, [Dict[str, Any]]; [get] is [m.get(k)]. *)
Abbreviation Market := (gmap string pyval).

Definition get (m : Market) (k : string) : pyval := default PNone (m !! k).

(** The quotes of one token, [{"BUY": .., "SELL": .., "MID": ..}]; a key
    that is missing and a key that holds [None] both read as [None]. *)
Record Quote : Set := {
  BUY : option float;
  SELL : option float;
  MID : option float
}.

Definition no_quote : Quote := {| BUY := None; SELL := None; MID := None |}.

Abbreviation PriceMap := (gmap string Quote).

(** *** The single-token queries

    [fetch_prices_single] asks the exchange.  What it answers is not fixed
    by the program: [respond log tid] is the answer to a query for [tid]
    made after the queries in [log].  A computation threads the log of the
    queries made so far. *)
Definition Net (A : Type) : Type := list string -> A * list string.

Definition net_ret {A : Type} (a : A) : Net A := fun log => (a, log).

Definition net_bind {A B : Type} (c : Net A) (k : A -> Net B) : Net B :=
  fun log => let '(a, log') := c log in k a log'.

#[global] Instance Net_ret : MRet Net := @net_ret.
#[global] Instance Net_bind : MBind Net := fun A B k c => net_bind c k.

Section WithLibrary.
Context `{Library}.
Variable respond : list string -> string -> Quote.

(** Lines 188-212: every failure of a request is caught there and leaves
    [None] in the answer, so a query always returns a [Quote]. *)
Definition fetch_prices_single (token_id : string) : Net Quote :=
  fun log => (respond log token_id, (log ++ [token_id])%list).

(** *** Outcome and token parsing *)

(** [[str(x).strip() for x in l if str(x).strip() != ""]] *)
Definition stripped_nonempty (l : list pyval) : list string :=
  filter (fun t => nonempty t = true) ((fun x => strip (str x)) <$> l).

(** [[t.strip() for t in s.split(",") if t.strip() != ""]] *)
Definition comma_fields (s : string) : list string :=
  filter (fun t => nonempty t = true) (strip <$> split "," s).

(** Lines 73-91: two non-empty labels, capitalized, or [None]. *)
Definition _coerce_outcomes (raw : pyval) : option (list string) :=
  let finish (outs : list string) :=
    if negb (length outs =? 2)%nat then None else Some (capitalize <$> outs) in
  match raw with
  | PNone => None
  | PList l => finish (stripped_nonempty l)
  | PStr s0 =>
      let s := strip s0 in
      if startswith "[" s && endswith "]" s then
        match (tmp ← json_loads s; items tmp) with
        | Returned l => finish (stripped_nonempty l)
        | Raised _ => finish (comma_fields s)
        end
      else finish (comma_fields s)
  | _ => None
  end.

(** Lines 93-106. *)
Definition _parse_outcome_prices (raw : pyval) : option (list float) :=
  match raw with
  | PNone => None
  | PList l =>
      match floats l with
      | Returned fs => Some fs
      | Raised _ => None
      end
  | _ =>
      let s := strip (str raw) in
      if negb (nonempty s) then None
      else
        match (if startswith "[" s && endswith "]" s
               then j ← json_loads s; l ← items j; floats l
               else floats (PStr <$> split "," s)) with
        | Returned fs => Some fs
        | Raised _ => None
        end
  end.

(** Lines 108-114. *)
Definition _is_yes (x : string) : bool :=
  bool_decide (lower x ∈ YES_ALIASES) || String.eqb (lower x) "yes".

Definition _is_no (x : string) : bool :=
  bool_decide (lower x ∈ NO_ALIASES) || String.eqb (lower x) "no".

Definition is_binary_yes_no (m : Market) : bool :=
  match _coerce_outcomes (get m "outcomes") with
  | Some [a; b] => (_is_yes a && _is_no b) || (_is_yes b && _is_no a)
  | _ => false
  end.

(** Lines 116-122. *)
Definition parse_token_ids_field (m : Market) : pyval :=
  py_or (get m "clobTokenIds") (get m "clob_token_ids").

Definition parse_token_ids (raw : pyval) : list string :=
  match raw with
  | PNone => []
  | PList l => str <$> l
  | _ => comma_fields (str raw)
  end.

(** Lines 216-218. *)
Definition _safe_float (x : pyval) : option float :=
  match to_float x with
  | Returned f => Some f
  | Raised _ => None
  end.

(** *** Summarization *)

Record TokenQuote : Set := {
  token_id : option string;
  best_buy : option float;
  best_sell : option float
}.

(** The dictionary [summarize_binary_market] returns. *)
Record Summary : Type := {
  id : pyval;
  slug : pyval;
  question : pyval;
  category : pyval;
  endDate : pyval;
  binary : bool;
  yes : TokenQuote;
  no : TokenQuote;
  q_yes_mid : option float;
  majority_side : option string
}.

(** Line 225: [tids[:2] if len(tids) >= 2 else tids]. *)
Definition first_two (tids : list string) : list string :=
  if (2 <=? length tids)%nat then take 2 tids else tids.

(** Lines 227-230: "ensure Yes is index 0 if possible". *)
Definition yes_first (outs tids : list string) : list string * list string :=
  match outs, tids with
  | [o0; o1], [t0; t1] =>
      if String.eqb (lower o0) "no" && String.eqb (lower o1) "yes"
      then ([o1; o0], [t1; t0])
      else (outs, tids)
  | _, _ => (outs, tids)
  end.

(** [bool(tid)] for [tid] a token identifier or [None]. *)
Definition present (tid : option string) : bool :=
  match tid with
  | Some t => nonempty t
  | None => false
  end.

(** Lines 235-236: [price_map.get(tid, {}) if tid else {}]. *)
Definition bulk_quote (price_map : PriceMap) (tid : option string) : Quote :=
  match tid with
  | Some t => if nonempty t then default no_quote (price_map !! t) else no_quote
  | None => no_quote
  end.

(** [BUY], [SELL] and [MID] are all [None]. *)
Definition unquoted (q : Quote) : bool :=
  match BUY q, SELL q, MID q with
  | None, None, None => true
  | _, _, _ => false
  end.

(** Lines 241-247: a token without any bulk quote is queried on its own. *)
Definition with_single_fallback (tid : option string) (q : Quote) : Net Quote :=
  match tid with
  | Some t => if nonempty t && unquoted q then fetch_prices_single t else net_ret q
  | None => net_ret q
  end.

(** Lines 249-256: "prefer MID; else (BUY+SELL)/2; else BUY". *)
Definition yes_tiers (p_yes : Quote) : option float :=
  match MID p_yes, BUY p_yes, SELL p_yes with
  | Some y_mid, _, _ => Some y_mid
  | None, Some y_buy, Some y_sell => Some (0.5 * (y_buy + y_sell))%float
  | None, Some y_buy, None => Some y_buy
  | None, None, _ => None
  end.

(** Lines 258-260: "if we only have NO mid, infer YES mid = 1 - NO mid". *)
Definition from_quotes (p_yes p_no : Quote) : option float :=
  match yes_tiers p_yes, MID p_no with
  | None, Some n_mid => Some (1.0 - n_mid)%float
  | q_yes_mid, _ => q_yes_mid
  end.

(** Lines 263-283: the fallback on the record's own [outcomePrices],
    then on [bestBid] and [bestAsk]. *)
Definition gamma_fallback (m : Market) (outs : list string) : option float :=
  let two_or_more (op : list float) :=
    match op with [] => false | _ => (2 <=? length op)%nat end in
  match _parse_outcome_prices (get m "outcomePrices") with
  | Some op =>
      if two_or_more op then
        let yes_idx :=
          match outs with
          | o0 :: rest =>
              if String.eqb (lower o0) "yes" then 0%nat
              else match rest with
                   | o1 :: _ => if String.eqb (lower o1) "yes" then 1%nat else 0%nat
                   | [] => 0%nat
                   end
          | [] => 0%nat
          end in
        if (yes_idx <? length op)%nat then op !! yes_idx else None
      else
        match _safe_float (get m "bestBid"), _safe_float (get m "bestAsk") with
        | Some bb_f, Some ba_f => Some (0.5 * (bb_f + ba_f))%float
        | _, _ => None
        end
  | None =>
      match _safe_float (get m "bestBid"), _safe_float (get m "bestAsk") with
      | Some bb_f, Some ba_f => Some (0.5 * (bb_f + ba_f))%float
      | _, _ => None
      end
  end.

(** Lines 220-301.  What [verbose] prints is left out. *)
Definition summarize_binary_market (m : Market) (price_map : PriceMap)
    : Net Summary :=
  let outs := default ["Yes"; "No"] (_coerce_outcomes (get m "outcomes")) in
  let tids := parse_token_ids (parse_token_ids_field m) in
  let tids := first_two tids in
  let '(outs, tids) := yes_first outs tids in
  let yes_tid := tids !! 0%nat in
  let no_tid := tids !! 1%nat in
  p_yes ← with_single_fallback yes_tid (bulk_quote price_map yes_tid);
  p_no ← with_single_fallback no_tid (bulk_quote price_map no_tid);
  let q_yes_mid :=
    match from_quotes p_yes p_no with
    | Some q => Some q
    | None => gamma_fallback m outs
    end in
  let majority_side :=
    match q_yes_mid with
    | Some q => if ge q 0.5 then Some "YES" else Some "NO"
    | None => None
    end in
  net_ret {| id := get m "id";
             slug := get m "slug";
             question := get m "question";
             category := get m "category";
             endDate := get m "endDate";
             binary := true;
             yes := {| token_id := yes_tid; best_buy := BUY p_yes; best_sell := SELL p_yes |};
             no := {| token_id := no_tid; best_buy := BUY p_no; best_sell := SELL p_no |};
             q_yes_mid := q_yes_mid;
             majority_side := majority_side |}.

(** The canonical pair of identifiers a record is given: the two token
    identifiers of [summarize_binary_market] after [yes_first]. *)
Definition canonical_tids (m : Market) : list string :=
  let outs := default ["Yes"; "No"] (_coerce_outcomes (get m "outcomes")) in
  snd (yes_first outs (first_two (parse_token_ids (parse_token_ids_field m)))).

(** The two labels in the same order. *)
Definition canonical_outs (m : Market) : list string :=
  let outs := default ["Yes"; "No"] (_coerce_outcomes (get m "outcomes")) in
  fst (yes_first outs (first_two (parse_token_ids (parse_token_ids_field m)))).

(** The single-token queries of lines 241-247, in the order they are
    made: one for each of the two identifiers that is non-empty and has no
    bulk quote. *)
Definition single_queries (m : Market) (price_map : PriceMap) : list string :=
  let asked (tid : option string) :=
    if present tid && unquoted (bulk_quote price_map tid)
    then [default "" tid] else [] in
  (asked (canonical_tids m !! 0%nat) ++ asked (canonical_tids m !! 1%nat))%list.

End WithLibrary.

(** A library that parses nothing, for records that hold native lists of
    text and need no parsing. *)
Definition no_parsing : Library :=
  {| json_loads := fun _ => Raised ValueError;
     float_of_text := fun _ => Raised ValueError;
     repr := fun _ => "" |}.

End Pull30day.

(** ** payout_calc.py: the interactive session *)

Module PayoutMain.
Import Py PyText PyVal PayoutCalc.
Local Open Scope string_scope.

(** Reading from the terminal: the lines still to be typed are threaded,
    and [input] fails when none is left. *)
Inductive reading (A : Type) : Type :=
| Read (a : A) (rest : list string)
| EndOfInput
| Failed (e : exn).
Arguments Read {A} a rest.
Arguments EndOfInput {A}.
Arguments Failed {A} e.

Section WithLibrary.
Context `{Library}.

(** Lines 20-28.  A line that [float] refuses with [ValueError] is asked
    again; what is printed is left out. *)
Fixpoint _parse_float (allow_blank : bool) (lines : list string)
    : reading (option float) :=
  match lines with
  | [] => EndOfInput
  | line :: rest =>
      let s := strip line in
      if allow_blank && negb (nonempty s) then Read None rest
      else match float_of_text s with
           | Returned f => Read (Some f) rest
           | Raised ValueError => _parse_float allow_blank rest
           | Raised e => Failed e
           end
  end.

End WithLibrary.



End PayoutMain.

(** ** pull_30day.py: the pipeline *)

Module Pipeline.
Import Py PyText PyVal Pull30day.
Local Open Scope string_scope.

(** [list(dict.fromkeys(l))]: the distinct items in the order of their
    first occurrence. *)
Definition dict_fromkeys (l : list string) : list string :=
  fold_left (fun keys x => if bool_decide (x ∈ keys) then keys else keys ++ [x])%list l [].

(** The query parameters of a request, [Dict[str, str]]. *)
Abbreviation Params := (gmap string string).

Section WithLibrary.
Context `{Library}.
Variable respond : list string -> string -> Quote.

(** What the pipeline takes from outside: the date window as text
    ([window_days_ahead], which reads today's date), the market listing
    ([_fetch_markets], taken to answer a list of records or to raise) and
    the bulk quotes ([fetch_prices_bulk]). *)
Variable window_days_ahead : Z -> Z -> string * string.
Variable _fetch_markets : Params -> outcome (list Market).
Variable fetch_prices_bulk : list string -> outcome PriceMap.

(** [str(n)] for the [limit] parameter. *)
Definition limit_text (limit : Z) : string := pretty limit.

(** Line 68: [not m.get("closed") and (m.get("acceptingOrders") is True)]. *)
Definition open_and_accepting (m : Market) : bool :=
  negb (truthy (get m "closed")) &&
  match get m "acceptingOrders" with
  | PBool true => true
  | _ => false
  end.

(** Lines 40-69. *)
Definition get_markets_due_in (days_ahead pad_days limit : Z)
    (require_accepting : bool) : outcome (list Market) :=
  let '(end_min, end_max) := window_days_ahead days_ahead pad_days in
  let params : Params :=
    {[ "closed" := "false"; "end_date_min" := end_min; "end_date_max" := end_max;
       "limit" := limit_text limit; "order" := "endDate"; "ascending" := "true" ]} in
  let params := if require_accepting then <[ "acceptingOrders" := "true" ]> params
                else params in
  mkts ← _fetch_markets params;
  match mkts with
  | [] =>
      let '(end_min2, end_max2) := window_days_ahead days_ahead (pad_days * 2) in
      let retry : Params :=
        {[ "end_date_min" := end_min2; "end_date_max" := end_max2;
           "limit" := limit_text limit; "order" := "endDate"; "ascending" := "true" ]} in
      mkts ← _fetch_markets retry;
      Returned (filter (fun m => open_and_accepting m = true) mkts)
  | _ => Returned mkts
  end.

(** Lines 323-326: the markets are summarized one after the other. *)
Fixpoint summarize_all (mkts : list Market) (bulk_prices : PriceMap)
    : Net (list Summary) :=
  match mkts with
  | [] => net_ret []
  | m :: rest =>
      s ← summarize_binary_market respond m bulk_prices;
      out ← summarize_all rest bulk_prices;
      net_ret (s :: out)
  end.

(** Lines 314-319: the binary markets and their distinct token
    identifiers. *)
Definition binary_markets (mkts : list Market) : list Market :=
  filter (fun m => is_binary_yes_no m = true) mkts.

Definition all_token_ids (mkts : list Market) : list string :=
  dict_fromkeys (concat ((fun m => parse_token_ids (parse_token_ids_field m)) <$> mkts)).

(** Lines 305-326, from the listing on: [log] holds the single-token
    queries made before. *)
Definition pull_from_listing (listing : list Market) (log : list string)
    : outcome (list Summary * list string) :=
  let mkts := binary_markets listing in
  let token_ids := all_token_ids mkts in
  bulk_prices ← match token_ids with
                | [] => Returned ∅
                | _ => fetch_prices_bulk token_ids
                end;
  Returned (summarize_all mkts bulk_prices log).

Definition pull_binary_markets_ending_in (days_ahead pad_days : Z)
    (require_accepting : bool) (log : list string)
    : outcome (list Summary * list string) :=
  listing ← get_markets_due_in days_ahead pad_days 200 require_accepting;
  pull_from_listing listing log.

End WithLibrary.

End Pipeline.

(** ** Sample markets and quotes *)

Module Fixtures.
Import PyVal Pull30day.
Local Open Scope string_scope.

(** A record whose labels and token identifiers are native lists of text. *)
Definition market (outcomes tokens : list string) : Market :=
  {[ "outcomes" := PList (PStr <$> outcomes);
     "clobTokenIds" := PList (PStr <$> tokens) ]}.

Definition yes_no_market : Market := market ["Yes"; "No"] ["tokA"; "tokB"].
Definition no_yes_market : Market := market ["No"; "Yes"] ["tokA"; "tokB"].
Definition false_true_market : Market := market ["False"; "True"] ["tokA"; "tokB"].

(** Bulk quotes: nothing for tokA, a midpoint of 0.3 for tokB. *)
Definition no_mid_only : PriceMap :=
  {[ "tokB" := {| BUY := None; SELL := None; MID := Some 0.3%float |} ]}.

(** Bulk quotes: only a best-sell for tokA, a midpoint of 0.3 for tokB. *)
Definition sell_and_no_mid : PriceMap :=
  {[ "tokA" := {| BUY := None; SELL := Some 0.8%float; MID := None |};
     "tokB" := {| BUY := None; SELL := None; MID := Some 0.3%float |} ]}.

(** An exchange that answers a midpoint of 0.4 for tokA and nothing
    else. *)
Definition answers_mid (log : list string) (tid : string) : Quote :=
  if String.eqb tid "tokA"
  then {| BUY := None; SELL := None; MID := Some 0.4%float |}
  else no_quote.

(** An exchange that has no quote for any token. *)
Definition answers_nothing (log : list string) (tid : string) : Quote := no_quote.

End Fixtures.

(** ** Sample inputs for the session and the pipeline *)

Module Samples.
Import Py PyVal Pull30day Pipeline.
Local Open Scope string_scope.

(** A library whose [float] accepts the text "62" only. *)
Definition reads_62 : Library :=
  {| json_loads := fun _ => Raised ValueError;
     float_of_text := fun s => if String.eqb s "62" then Returned 62%float
                               else Raised ValueError;
     repr := fun _ => "" |}.

(** A date window written as the two day offsets. *)
Definition offsets (days_ahead pad_days : Z) : string * string :=
  (pretty (days_ahead - pad_days), pretty (days_ahead + pad_days)).

(** Three records: one open and accepting orders, one closed, one that
    does not say whether it accepts orders. *)
Definition open_market : Market :=
  {[ "id" := PStr "m1"; "closed" := PBool false; "acceptingOrders" := PBool true ]}.
Definition closed_market : Market :=
  {[ "id" := PStr "m2"; "closed" := PBool true; "acceptingOrders" := PBool true ]}.
Definition silent_market : Market :=
  {[ "id" := PStr "m3"; "closed" := PBool false ]}.

(** A listing service that finds nothing when it is asked to leave out
    the closed markets, and the three records otherwise. *)
Definition finds_nothing_open (params : Pipeline.Params) : outcome (list Market) :=
  match params !! "closed" with
  | Some _ => Returned []
  | None => Returned [open_market; closed_market; silent_market]
  end.

(** A listing service that answers the same two records to every
    request. *)
Definition lists_two (params : Pipeline.Params) : outcome (list Market) :=
  Returned [silent_market; open_market].

(** A binary market without token identifiers, and a record that is not
    binary. *)
Definition no_tokens_market : Market :=
  {[ "id" := PStr "m4"; "outcomes" := PList [PStr "Yes"; PStr "No"] ]}.
Definition three_way_market : Market :=
  {[ "id" := PStr "m5"; "outcomes" := PList [PStr "A"; PStr "B"; PStr "C"] ]}.

(** A binary market with two token identifiers. *)
Definition priced_market : Market :=
  {[ "id" := PStr "m6"; "outcomes" := PList [PStr "Yes"; PStr "No"];
     "clobTokenIds" := PList [PStr "tokA"; PStr "tokB"] ]}.

(** Bulk quotes that are out of service, and bulk quotes that know a
    midpoint of 0.7 for tokA. *)
Definition bulk_down (token_ids : list string) : outcome PriceMap := Raised ValueError.
Definition yes_mid_only : PriceMap :=
  {[ "tokA" := {| BUY := None; SELL := None; MID := Some 0.7%float |} ]}.
Definition bulk_mid (token_ids : list string) : outcome PriceMap :=
  Returned yes_mid_only.

(** A record that lists No first, with the prices 0.2 and 0.8 in the
    same positions. *)
Definition no_yes_priced (tokens : list string) : Market :=
  {[ "outcomes" := PList [PStr "No"; PStr "Yes"];
     "outcomePrices" := PList [PFloat 0.2%float; PFloat 0.8%float];
     "clobTokenIds" := PList (PStr <$> tokens) ]}.

End Samples.

(** * Properties *)

(** ** Order of binary64 values *)

Section FloatOrder.
Import SF.

Lemma lex3_spec (a b : Z * Z * Z) :
  CompareSpec (a = b) (lt3 a b) (lt3 b a) (lex3 a b).
Proof.
  destruct a as [[a1 a2] a3], b as [[b1 b2] b3]; unfold lex3, lt3.
  destruct (Z.compare_spec a1 b1); [subst | constructor; lia ..].
  destruct (Z.compare_spec a2 b2); [subst | constructor; lia ..].
  destruct (Z.compare_spec a3 b3); constructor; [subst; reflexivity | lia ..].
Qed.

Lemma SFcompare_key (x y : spec_float) :
  SFcompare x y =
  match key x, key y with
  | Some a, Some b => Some (lex3 a b)
  | _, _ => None
  end.
Proof.
  destruct x as [[|]|[|]| |[|] m1 e1], y as [[|]|[|]| |[|] m2 e2];
    try reflexivity; cbn -[Z.compare].
  rewrite Z.compare_opp, (Z.compare_antisym e1 e2).
  destruct (e1 ?= e2); reflexivity.
Qed.

Lemma ltb_key (x y : float) :
  (x <? y)%float =
  match fkey x, fkey y with
  | Some a, Some b => match lex3 a b with Lt => true | _ => false end
  | _, _ => false
  end.
Proof.
  rewrite FloatAxioms.ltb_spec; unfold SFltb, fkey; rewrite SFcompare_key.
  destruct (key (Prim2SF x)), (key (Prim2SF y)); reflexivity.
Qed.

Lemma leb_key (x y : float) :
  (x <=? y)%float =
  match fkey x, fkey y with
  | Some a, Some b => match lex3 a b with Gt => false | _ => true end
  | _, _ => false
  end.
Proof.
  rewrite FloatAxioms.leb_spec; unfold SFleb, fkey; rewrite SFcompare_key.
  destruct (key (Prim2SF x)), (key (Prim2SF y)); reflexivity.
Qed.

Lemma eqb_key (x y : float) :
  (x =? y)%float =
  match fkey x, fkey y with
  | Some a, Some b => match lex3 a b with Eq => true | _ => false end
  | _, _ => false
  end.
Proof.
  rewrite FloatAxioms.eqb_spec; unfold SFeqb, fkey; rewrite SFcompare_key.
  destruct (key (Prim2SF x)), (key (Prim2SF y)); reflexivity.
Qed.

Lemma is_nan_key (x : float) :
  is_nan x = match fkey x with Some _ => false | None => true end.
Proof.
  unfold is_nan; rewrite eqb_key.
  destruct (fkey x) as [a|]; [|reflexivity].
  destruct (lex3_spec a a) as [_|H|H]; [reflexivity | exfalso ..];
    destruct a as [[a1 a2] a3]; unfold lt3 in H; lia.
Qed.

End FloatOrder.

(** Comparisons of floats are turned into comparisons of their keys, and
    those are decided by linear arithmetic. *)
Ltac float_keys :=
  unfold Py.gt, Py.lt, Py.ge, Py.eq in *;
  rewrite ?ltb_key, ?leb_key, ?eqb_key, ?is_nan_key in *;
  repeat match goal with
         | H : context [SF.fkey ?x] |- _ => destruct (SF.fkey x) as [[[? ?] ?]|]
         | |- context [SF.fkey ?x] => destruct (SF.fkey x) as [[[? ?] ?]|]
         end;
  repeat match goal with
         | H : context [SF.lex3 ?a ?b] |- _ =>
             destruct (lex3_spec a b); unfold SF.lt3 in *
         | |- context [SF.lex3 ?a ?b] =>
             destruct (lex3_spec a b); unfold SF.lt3 in *
         end;
  try discriminate; try reflexivity;
  repeat match goal with
         | H : (_, _) = (_, _) |- _ => injection H as ? ? ?
         | H : (_, _) = (_, _) |- _ => injection H as ? ?
         end;
  try (exfalso; lia).

Section FloatOrderFacts.

Lemma ltb_asym (x y : float) : (x <? y)%float = true -> (y <? x)%float = false.
Proof. intros H. float_keys. Qed.

Lemma eqb_not_ltb (x y : float) :
  (x =? y)%float = true -> (x <? y)%float = false /\ (y <? x)%float = false.
Proof. intros H. split; float_keys. Qed.

Lemma eqb_leb (x y : float) : (x =? y)%float = true -> (y <=? x)%float = true.
Proof. intros H. float_keys. Qed.

Lemma ltb_not_eqb (x y : float) : (x <? y)%float = true -> (y =? x)%float = false.
Proof. intros H. float_keys. Qed.

Lemma leb_not_ltb (x y : float) : (x <=? y)%float = true -> (y <? x)%float = false.
Proof. intros H. float_keys. Qed.

Lemma leb_ltb_trans (x y z : float) :
  (x <=? y)%float = true -> (y <? z)%float = true -> (x <? z)%float = true.
Proof. intros H1 H2. float_keys. Qed.

Lemma ltb_trans (x y z : float) :
  (x <? y)%float = true -> (y <? z)%float = true -> (x <? z)%float = true.
Proof. intros H1 H2. float_keys. Qed.

Lemma not_leb_ltb (x y : float) :
  is_nan x = false -> is_nan y = false ->
  (x <=? y)%float = false -> (y <? x)%float = true.
Proof. intros Hx Hy H. float_keys. Qed.

Lemma not_ltb_leb (x y : float) :
  is_nan x = false -> is_nan y = false ->
  (x <? y)%float = false -> (y <=? x)%float = true.
Proof. intros Hx Hy H. float_keys. Qed.

End FloatOrderFacts.

(** ** Arithmetic on zeros

    What binary64 arithmetic gives when an operand is a zero (of either
    sign); these cases involve no rounding. *)

Section FloatZero.
Local Open Scope float_scope.

Lemma Prim2SF_zero : Prim2SF 0 = S754_zero false.
Proof. vm_compute. reflexivity. Qed.

Lemma Prim2SF_one : Prim2SF 1 = S754_finite false 4503599627370496 (-52).
Proof. vm_compute. reflexivity. Qed.

Lemma eqb_zero_inv (x : float) :
  (x =? 0) = true -> exists s, Prim2SF x = S754_zero s.
Proof.
  rewrite FloatAxioms.eqb_spec, Prim2SF_zero. unfold SFeqb.
  destruct (Prim2SF x) as [s|[|]| |[|] m e]; cbn; try discriminate.
  intros _. exists s. reflexivity.
Qed.

Lemma eqb_zero_intro (x : float) (s : bool) :
  Prim2SF x = S754_zero s -> (x =? 0) = true.
Proof.
  intros H. rewrite FloatAxioms.eqb_spec, Prim2SF_zero, H. reflexivity.
Qed.

(** A value above zero is a positive number or positive infinity. *)
Lemma ltb_zero_inv (c : float) :
  (0 <? c) = true ->
  (exists m e, Prim2SF c = S754_finite false m e) \/
  Prim2SF c = S754_infinity false.
Proof.
  rewrite FloatAxioms.ltb_spec, Prim2SF_zero. unfold SFltb.
  destruct (Prim2SF c) as [s|[|]| |[|] m e]; cbn; try discriminate; intros _.
  - right; reflexivity.
  - left; eauto.
Qed.

(** A value in [0, 1) is a zero or a finite number. *)
Lemma unit_interval_finite (f : float) :
  (0 <=? f) = true -> (f <? 1) = true -> SF.finite (Prim2SF f) = true.
Proof.
  rewrite FloatAxioms.leb_spec, FloatAxioms.ltb_spec, Prim2SF_zero, Prim2SF_one.
  destruct (Prim2SF f) as [s|[|]| |s m e]; intros H0 H1;
    try reflexivity; exfalso.
  - vm_compute in H0. discriminate.
  - vm_compute in H1. discriminate.
  - vm_compute in H0. discriminate.
Qed.

Lemma zero_div_pos (x c : float) (s : bool) :
  Prim2SF x = S754_zero s -> (0 <? c) = true ->
  Prim2SF (x / c) = S754_zero s.
Proof.
  intros Hx Hc. rewrite div_spec, Hx.
  destruct (ltb_zero_inv c Hc) as [(m & e & ->)| ->]; cbn;
    destruct s; reflexivity.
Qed.

Lemma zero_mul_one (x : float) (s : bool) :
  Prim2SF x = S754_zero s -> Prim2SF (x * 1) = S754_zero s.
Proof.
  intros Hx. rewrite mul_spec, Hx, Prim2SF_one. cbn. destruct s; reflexivity.
Qed.

Lemma zero_sub_zero (x y : float) (s t : bool) :
  Prim2SF x = S754_zero s -> Prim2SF y = S754_zero t ->
  exists u, Prim2SF (x - y) = S754_zero u.
Proof.
  intros Hx Hy. rewrite sub_spec, Hx, Hy.
  destruct s, t; cbn; eauto.
Qed.

Lemma finite_mul_zero (f y : float) (t : bool) :
  SF.finite (Prim2SF f) = true -> Prim2SF y = S754_zero t ->
  exists u, Prim2SF (f * y) = S754_zero u.
Proof.
  intros Hf Hy. rewrite mul_spec, Hy.
  destruct (Prim2SF f) as [s|[|]| |s m e]; cbn in *; try discriminate; eauto.
Qed.

End FloatZero.

(** ** More binary64 facts *)

Section FloatMore.
Local Open Scope float_scope.

Lemma is_nan_inv (x : float) : is_nan x = true -> Prim2SF x = S754_nan.
Proof.
  rewrite is_nan_key. unfold SF.fkey.
  destruct (Prim2SF x) as [s|[|]| |[|] m e]; cbn; try discriminate; reflexivity.
Qed.

Lemma is_nan_intro (x : float) : Prim2SF x = S754_nan -> is_nan x = true.
Proof. intros Hx. rewrite is_nan_key. unfold SF.fkey. rewrite Hx. reflexivity. Qed.

(** Every comparison with NaN is false. *)
Lemma ltb_nan_l (x y : float) : is_nan x = true -> (x <? y) = false.
Proof. intros Hx. float_keys. Qed.

Lemma ltb_nan_r (x y : float) : is_nan y = true -> (x <? y) = false.
Proof. intros Hy. float_keys. Qed.

Lemma leb_nan_r (x y : float) : is_nan y = true -> (x <=? y) = false.
Proof. intros Hy. float_keys. Qed.

Lemma sub_nan_r (x y : float) : is_nan y = true -> is_nan (x - y) = true.
Proof.
  intros Hy. apply is_nan_intro. rewrite sub_spec, (is_nan_inv _ Hy).
  destruct (Prim2SF x) as [s|[|]| |[|] m e]; reflexivity.
Qed.

(** A value that [is_finite] accepts is a zero or a finite number. *)
Lemma is_finite_inv (x : float) : is_finite x = true -> SF.finite (Prim2SF x) = true.
Proof.
  unfold is_finite, is_infinity.
  rewrite negb_true_iff, orb_false_iff. intros [Hn Hi].
  rewrite FloatAxioms.eqb_spec, abs_spec in Hi.
  rewrite is_nan_key in Hn. unfold SF.fkey in Hn.
  change (Prim2SF infinity) with (S754_infinity false) in Hi.
  destruct (Prim2SF x) as [s|s| |s m e]; try reflexivity.
  - vm_compute in Hi. discriminate.
  - destruct (SF.key S754_nan) eqn:E; vm_compute in E; discriminate.
Qed.

(** Multiplying a canonical mantissa by the mantissa of 1.0 and rounding
    gives the number back. *)
Lemma canonical_times_mantissa_of_one (s : bool) (m : positive) (e : Z) :
  valid_binary (S754_finite s m e) = true ->
  binary_round_aux prec emax s (Zpos (4503599627370496 * m)) (e + -52) loc_Exact
  = S754_finite s m e.
Proof.
  intros Hv. unfold SpecFloat.valid_binary, bounded, canonical_mantissa in Hv.
  apply andb_prop in Hv. destruct Hv as [Hc Hb].
  apply Z.eqb_eq in Hc.
  unfold binary_round_aux.
  assert (Hd : Zdigits2 (Zpos (4503599627370496 * m))
               = (Zpos (digits2_pos m) + 52)%Z).
  { unfold Zdigits2.
    change (digits2_pos (4503599627370496 * m))
      with (Pos.iter Pos.succ (digits2_pos m) 52).
    cbv [Pos.iter]. rewrite !Pos2Z.inj_succ. lia. }
  unfold shr_fexp at 1. rewrite Hd.
  replace (Z.pos (digits2_pos m) + 52 + (e + -52))%Z
    with (Z.pos (digits2_pos m) + e)%Z by lia.
  rewrite Hc.
  replace (e - (e + -52))%Z with 52%Z by lia.
  cbn [shr shr_record_of_loc].
  replace (e + -52 + 52)%Z with e by lia.
  change (SpecFloat.iter_pos shr_1 52 _)
    with {| shr_m := Zpos m; shr_r := false; shr_s := false |}.
  cbn [shr_m loc_of_shr_record round_nearest_even].
  unfold shr_fexp. cbn [Zdigits2]. rewrite Hc, Z.sub_diag.
  cbn [shr shr_record_of_loc shr_m].
  rewrite Hb. reflexivity.
Qed.

(** [x * 1.0] is [x], for every binary64 value. *)
Lemma mul_one_r (x : float) : x * 1 = x.
Proof.
  apply Prim2SF_inj. rewrite mul_spec, Prim2SF_one.
  pose proof (Prim2SF_valid x) as Hv.
  destruct (Prim2SF x) as [s|s| |s m e].
  - cbn. rewrite xorb_false_r. reflexivity.
  - cbn. rewrite xorb_false_r. reflexivity.
  - reflexivity.
  - unfold SF64mul, SFmul. rewrite xorb_false_r, Pos.mul_comm.
    apply canonical_times_mantissa_of_one. exact Hv.
Qed.

(** A finite difference has a finite left operand. *)
Lemma sub_finite_l (x y : float) :
  SF.finite (Prim2SF (x - y)) = true -> SF.finite (Prim2SF x) = true.
Proof.
  rewrite sub_spec.
  destruct (Prim2SF x) as [s|s| |s m e]; try reflexivity;
    destruct (Prim2SF y) as [t|t| |t n f]; try (destruct s, t); cbn;
    discriminate.
Qed.

Lemma zero_mul_finite (f y : float) (s : bool) :
  Prim2SF f = S754_zero s -> SF.finite (Prim2SF y) = true ->
  exists u, Prim2SF (f * y) = S754_zero u.
Proof.
  intros Hf Hy. rewrite mul_spec, Hf.
  destruct (Prim2SF y) as [t|t| |t m e]; cbn in *; try discriminate; eauto.
Qed.

(** Subtracting a zero leaves a value equal to the original. *)
Lemma sub_zero_eqb (x z : float) (s : bool) :
  SF.finite (Prim2SF x) = true -> Prim2SF z = S754_zero s ->
  (x - z =? x) = true.
Proof.
  intros Hx Hz. rewrite eqb_key. unfold SF.fkey. rewrite sub_spec, Hz.
  destruct (Prim2SF x) as [t|t| |t m e]; cbn in Hx; try discriminate.
  - destruct t, s; reflexivity.
  - cbn [SF64sub SFsub].
    destruct (SF.key (S754_finite t m e)) as [a|] eqn:Ea.
    + destruct (lex3_spec a a) as [_|Hlt|Hlt]; [reflexivity | exfalso ..];
        destruct a as [[a1 a2] a3]; unfold SF.lt3 in Hlt; lia.
    + destruct t; discriminate.
Qed.

(** A value below zero is a negative number or negative infinity. *)
Lemma ltb_zero_inv_neg (x : float) :
  (x <? 0) = true ->
  (exists m e, Prim2SF x = S754_finite true m e) \/
  Prim2SF x = S754_infinity true.
Proof.
  rewrite FloatAxioms.ltb_spec, Prim2SF_zero. unfold SFltb.
  destruct (Prim2SF x) as [s|[|]| |[|] m e]; cbn; try discriminate; intros _.
  - right; reflexivity.
  - left; eauto.
Qed.

(** Rounding keeps the sign it is given. *)
Lemma binary_round_aux_sign (prec emax : Z) (sx : bool) (mx ex : Z)
    (lx : SpecFloat.location) :
  match binary_round_aux prec emax sx mx ex lx with
  | S754_zero s | S754_infinity s | S754_finite s _ _ => s = sx
  | S754_nan => True
  end.
Proof.
  unfold binary_round_aux.
  destruct (shr_fexp prec emax mx ex lx) as [mrs' e'].
  destruct (shr_fexp prec emax _ e' loc_Exact) as [mrs'' e''].
  destruct (shr_m mrs'') as [|m|m]; [reflexivity| |exact I].
  destruct (e'' <=? emax - prec)%Z; reflexivity.
Qed.

(** A negative value divided by a positive one is never above zero: when
    the quotient is a finite number it is negative or a zero. *)
Lemma neg_div_pos (x c : float) :
  (x <? 0) = true -> (0 <? c) = true ->
  SF.finite (Prim2SF (x / c)) = true -> (x / c <=? 0) = true.
Proof.
  intros Hx Hc. rewrite FloatAxioms.leb_spec, div_spec, Prim2SF_zero.
  destruct (ltb_zero_inv_neg x Hx) as [(m & e & ->)| ->];
    destruct (ltb_zero_inv c Hc) as [(n & f & ->)| ->];
    try (cbn; discriminate); [|intros _; reflexivity].
  unfold SF64div, SFdiv.
  destruct (SFdiv_core_binary prec emax (Z.pos m) e (Z.pos n) f) as [[mz ez] lz].
  pose proof (binary_round_aux_sign prec emax (xorb true false) mz ez lz) as Hs.
  destruct (binary_round_aux prec emax (xorb true false) mz ez lz)
    as [s|s| |s k g]; cbn [SF.finite]; try discriminate; intros _;
    cbn in Hs; subst s; reflexivity.
Qed.

(** With a fee rate of zero the fee is a zero, and taking it off the gross
    payout leaves a value equal to [stake / c]. *)
Lemma zero_fee_win_payout (stake c fee : float) :
  (fee =? 0) = true -> is_finite (stake / c - stake) = true ->
  (stake / c * 1 - fee * (stake / c * 1 - stake) =? stake / c) = true.
Proof.
  intros Hfee Hfin. rewrite mul_one_r.
  destruct (eqb_zero_inv _ Hfee) as [s Hz].
  pose proof (is_finite_inv _ Hfin) as Hd.
  destruct (zero_mul_finite _ _ _ Hz Hd) as [u Hu].
  apply (sub_zero_eqb _ _ u); [|exact Hu].
  exact (sub_finite_l _ _ Hd).
Qed.

Lemma eqb_leb_trans (x y z : float) :
  (x =? y) = true -> (y <=? z) = true -> (x <=? z) = true.
Proof. intros H1 H2. float_keys. Qed.

Lemma leb_not_eqb_ltb (x y : float) :
  (x <=? y) = true -> (x =? y) = false -> (x <? y) = true.
Proof. intros H1 H2. float_keys. Qed.

Lemma eqb_trans_false (x y z : float) :
  (x =? y) = true -> (y =? z) = false -> (x =? z) = false.
Proof. intros H1 H2. float_keys. Qed.

End FloatMore.

(** ** payout_calc.py: calibration, side selection and payout *)

Section PayoutProperties.
Import Py PayoutCalc.
Local Open Scope float_scope.

(** The guard [c > 0] keeps the division away from a zero divisor: the
    purchase never raises. *)
Lemma buy_returns (sd : Side) (c q_win stake : float) (cfg : Config)
    (py pn q ey en : float) :
  exists l, buy sd c q_win stake cfg py pn q ey en = Returned l /\
    p_yes l = py /\ p_no l = pn /\ q_yes l = q /\
    ev_per_yes l = ey /\ ev_per_no l = en /\
    side l = sd /\ bought l c q_win stake cfg.
Proof.
  unfold buy, bought.
  destruct (gt c 0) eqn:Hc.
  - unfold truediv. unfold gt in Hc. rewrite (ltb_not_eqb 0 c Hc). cbn.
    eexists; split; [reflexivity|]. cbn. repeat split; reflexivity.
  - cbn. eexists; split; [reflexivity|]. cbn. repeat split; reflexivity.
Qed.

(** The three ways through [evaluate_market]. *)
Lemma evaluate_locals_spec (yes_pct : float) (no_pct : option float)
    (stake : float) (cfg : Config) :
  let p := normalize yes_pct no_pct in
  let q := calibrate (fst p) (snd p) cfg in
  let ey := q - fst p in
  let en := (1.0 - q) - snd p in
  exists l, evaluate_locals yes_pct no_pct stake cfg = Returned l /\
    p_yes l = fst p /\ p_no l = snd p /\ q_yes l = q /\
    ev_per_yes l = ey /\ ev_per_no l = en /\
    ((lt ey (min_ev cfg) && lt en (min_ev cfg) = true /\
      side l = HOLD /\ chosen_price l = None /\ chosen_q_win l = None /\
      shares l = None /\ gross_win_payout l = None /\
      win_payout l = 0.0 /\ lose_payout l = 0.0 /\ ev_dollars l = 0.0)
     \/ (lt ey (min_ev cfg) && lt en (min_ev cfg) = false /\
         ge ey en = true /\ side l = YES /\ bought l (fst p) q stake cfg)
     \/ (lt ey (min_ev cfg) && lt en (min_ev cfg) = false /\
         ge ey en = false /\ side l = NO /\
         bought l (snd p) (1.0 - q) stake cfg)).
Proof.
  intros p q ey en. unfold evaluate_locals.
  fold p. destruct p as [py pn] eqn:Hp. cbn [fst snd] in *.
  fold q. fold ey. fold en.
  destruct (lt ey (min_ev cfg) && lt en (min_ev cfg)) eqn:Hhold.
  - eexists; split; [reflexivity|]. cbn.
    repeat split; try reflexivity. left. repeat split; reflexivity.
  - destruct (ge ey en) eqn:Hge.
    + destruct (buy_returns YES py q stake cfg py pn q ey en)
        as (l & -> & ? & ? & ? & ? & ? & ? & ?).
      exists l. split; [reflexivity | tauto].
    + destruct (buy_returns NO pn (1.0 - q) stake cfg py pn q ey en)
        as (l & -> & ? & ? & ? & ? & ? & ? & ?).
      exists l. split; [reflexivity | tauto].
Qed.

Lemma evaluate_market_report (question : string) (yes_pct : float)
    (no_pct : option float) (stake : float) (cfg : Config) (l : Locals) :
  evaluate_locals yes_pct no_pct stake cfg = Returned l ->
  evaluate_market question yes_pct no_pct stake cfg
  = Returned (report question stake l).
Proof. intros H. unfold evaluate_market. rewrite H. reflexivity. Qed.

(** C1. Calibration inside [evaluate_market]: with [(p_yes, p_no)] the
    normalized market probabilities, the calibrated [q_yes] is the majority
    accuracy when [p_yes > p_no], one minus it when [p_yes < p_no], and
    exactly 0.5 when [p_yes == p_no].  The dictionary that is returned holds
    it rounded to 4 decimals. *)
Theorem calibration_majority_rule (yes_pct : float) (no_pct : option float)
    (stake : float) (cfg : Config) :
  exists l, evaluate_locals yes_pct no_pct stake cfg = Returned l /\
    (p_yes l, p_no l) = normalize yes_pct no_pct /\
    (gt (p_yes l) (p_no l) = true -> q_yes l = majority_accuracy cfg) /\
    (lt (p_yes l) (p_no l) = true -> q_yes l = 1.0 - majority_accuracy cfg) /\
    (eq (p_yes l) (p_no l) = true -> q_yes l = 0.5) /\
    (forall question,
       evaluate_market question yes_pct no_pct stake cfg
       = Returned (report question stake l) /\
       q_yes_calibrated (report question stake l) = round (q_yes l) 4).
Proof.
  destruct (evaluate_locals_spec yes_pct no_pct stake cfg)
    as (l & Hl & Hpy & Hpn & Hq & _).
  exists l. split; [exact Hl|]. split.
  - rewrite Hpy, Hpn. destruct (normalize yes_pct no_pct); reflexivity.
  - cut ((gt (p_yes l) (p_no l) = true -> q_yes l = majority_accuracy cfg) /\
         (lt (p_yes l) (p_no l) = true -> q_yes l = 1.0 - majority_accuracy cfg) /\
         (eq (p_yes l) (p_no l) = true -> q_yes l = 0.5)).
    { intros (H1 & H2 & H3). do 3 (split; [assumption|]).
      intros q. split; [exact (evaluate_market_report q _ _ _ _ _ Hl) | reflexivity]. }
    rewrite Hq, Hpy, Hpn. unfold calibrate.
    set (a := fst (normalize yes_pct no_pct)).
    set (b := snd (normalize yes_pct no_pct)).
    repeat split; intros H.
    + rewrite H. reflexivity.
    + unfold gt, lt in *. rewrite (ltb_asym _ _ H), H. reflexivity.
    + unfold gt, lt, eq in *.
      destruct (eqb_not_ltb _ _ H) as [-> ->]. reflexivity.
Qed.

(** The three branches of the calibration are all taken: at 62, at 38 and
    at 50 percent. *)
Lemma calibration_majority_rule_witness :
  (exists l, evaluate_locals 62 None 100 default_config = Returned l /\
     gt (p_yes l) (p_no l) = true /\ q_yes l = 0.9) /\
  (exists l, evaluate_locals 38 None 100 default_config = Returned l /\
     lt (p_yes l) (p_no l) = true /\ q_yes l = 1.0 - 0.9) /\
  (exists l, evaluate_locals 50 (Some 50) 100 default_config = Returned l /\
     eq (p_yes l) (p_no l) = true /\ q_yes l = 0.5).
Proof.
  repeat split.
  - destruct (calibration_majority_rule 62 None 100 default_config)
      as (l & Hl & Hp & Hgt & _ & _ & _).
    exists l. split; [exact Hl|].
    assert (G : gt (p_yes l) (p_no l) = true)
      by (injection Hp as -> ->; vm_compute; reflexivity).
    split; [exact G | exact (Hgt G)].
  - destruct (calibration_majority_rule 38 None 100 default_config)
      as (l & Hl & Hp & _ & Hlt & _ & _).
    exists l. split; [exact Hl|].
    assert (G : lt (p_yes l) (p_no l) = true)
      by (injection Hp as -> ->; vm_compute; reflexivity).
    split; [exact G | exact (Hlt G)].
  - destruct (calibration_majority_rule 50 (Some 50) 100 default_config)
      as (l & Hl & Hp & _ & _ & Heq & _).
    exists l. split; [exact Hl|].
    assert (G : eq (p_yes l) (p_no l) = true)
      by (injection Hp as -> ->; vm_compute; reflexivity).
    split; [exact G | exact (Heq G)].
Defined.

(** C4. When both per-dollar EVs, [q_yes - p_yes] and
    [(1 - q_yes) - p_no], are strictly below [min_ev], the evaluation
    returns HOLD with EV in dollars 0, win payout 0 and lose payout 0, and
    no side or price is chosen. *)
Theorem hold_when_both_below (question : string) (yes_pct : float)
    (no_pct : option float) (stake : float) (cfg : Config) :
  let p := normalize yes_pct no_pct in
  let q := calibrate (fst p) (snd p) cfg in
  lt (q - fst p) (min_ev cfg) = true ->
  lt ((1.0 - q) - snd p) (min_ev cfg) = true ->
  exists l r,
    evaluate_locals yes_pct no_pct stake cfg = Returned l /\
    evaluate_market question yes_pct no_pct stake cfg = Returned r /\
    ev_per_yes l = q_yes l - p_yes l /\
    ev_per_no l = (1.0 - q_yes l) - p_no l /\
    side l = HOLD /\ ev_dollars l = 0 /\ win_payout l = 0 /\ lose_payout l = 0 /\
    chosen_price l = None /\
    r_side r = HOLD /\ r_ev_dollars r = 0 /\ win_payout_if_correct r = 0 /\
    lose_payout_if_wrong r = 0 /\ ev_per_dollar r = 0 /\ r_chosen_price r = None.
Proof.
  intros p q Hy Hn.
  destruct (evaluate_locals_spec yes_pct no_pct stake cfg)
    as (l & Hl & Hpy & Hpn & Hq & Hey & Hen & Hcase).
  fold p q in Hpy, Hpn, Hq, Hey, Hen, Hcase.
  assert (Hboth : lt (q - fst p) (min_ev cfg) && lt (1.0 - q - snd p) (min_ev cfg) = true)
    by (rewrite Hy, Hn; reflexivity).
  destruct Hcase as [(_ & Hs & Hc & _ & _ & _ & Hw & Hlo & Hev)
                    |[(Hf & _)|(Hf & _)]];
    [| rewrite Hboth in Hf; discriminate ..].
  exists l, (report question stake l).
  split; [exact Hl|].
  split; [exact (evaluate_market_report question _ _ _ _ _ Hl)|].
  rewrite Hey, Hen, Hq, Hpy, Hpn.
  unfold report; cbn [r_side r_ev_dollars win_payout_if_correct
                      lose_payout_if_wrong ev_per_dollar r_chosen_price].
  rewrite Hs, Hc, Hw, Hlo, Hev.
  repeat split; reflexivity.
Qed.

(** At 62 percent with a threshold of 0.5 both EVs (0.28 and -0.28) are
    below the threshold. *)
Lemma hold_when_both_below_witness :
  exists l r,
    evaluate_locals 62 None 100 {| majority_accuracy := 0.9; min_ev := 0.5; fee_rate := 0 |}
    = Returned l /\
    evaluate_market "q" 62 None 100 {| majority_accuracy := 0.9; min_ev := 0.5; fee_rate := 0 |}
    = Returned r /\
    ev_per_yes l = q_yes l - p_yes l /\
    ev_per_no l = (1.0 - q_yes l) - p_no l /\
    side l = HOLD /\ ev_dollars l = 0 /\ win_payout l = 0 /\ lose_payout l = 0 /\
    chosen_price l = None /\
    r_side r = HOLD /\ r_ev_dollars r = 0 /\ win_payout_if_correct r = 0 /\
    lose_payout_if_wrong r = 0 /\ ev_per_dollar r = 0 /\ r_chosen_price r = None.
Proof.
  apply (hold_when_both_below "q" 62 None 100
           {| majority_accuracy := 0.9; min_ev := 0.5; fee_rate := 0 |});
    vm_compute; reflexivity.
Defined.

(** C5. A decision that is not HOLD and whose two per-dollar EVs compare
    equal selects YES: the [ev_per_yes >= ev_per_no] test breaks the tie. *)
Theorem tie_break_selects_yes (yes_pct : float) (no_pct : option float)
    (stake : float) (cfg : Config) (l : Locals) :
  evaluate_locals yes_pct no_pct stake cfg = Returned l ->
  side l <> HOLD ->
  eq (ev_per_yes l) (ev_per_no l) = true ->
  side l = YES.
Proof.
  intros H Hside Htie.
  destruct (evaluate_locals_spec yes_pct no_pct stake cfg)
    as (l' & Hl & _ & _ & _ & Hey & Hen & Hcase).
  rewrite Hl in H; injection H as ->.
  destruct Hcase as [(_ & Hs & _)|[(_ & _ & Hs & _)|(_ & Hge & _)]].
  - contradiction.
  - exact Hs.
  - rewrite <- Hey, <- Hen in Hge. unfold ge, eq in *.
    rewrite (eqb_leb _ _ Htie) in Hge. discriminate.
Qed.

(** End-to-end example 2: 50 against 50 with [min_ev = 0] gives
    [q_yes = 0.5], both EVs 0, and side YES. *)
Lemma tie_break_selects_yes_witness :
  exists l, evaluate_locals 50 (Some 50) 10 default_config = Returned l /\
    q_yes l = 0.5 /\ ev_per_yes l = 0 /\ ev_per_no l = 0 /\
    side l <> HOLD /\ side l = YES.
Proof.
  eexists. split; [reflexivity|].
  split; [reflexivity|]. split; [reflexivity|]. split; [reflexivity|].
  split; [discriminate|].
  apply (tie_break_selects_yes 50 (Some 50) 10 default_config);
    [reflexivity | discriminate | reflexivity].
Defined.

(** C9. [evaluate_market] never raises, and when the price of the chosen
    side is exactly 0 the purchase is of 0 shares with gross win payout 0:
    the division is not evaluated. *)
Theorem zero_price_buys_no_shares (question : string) (yes_pct : float)
    (no_pct : option float) (stake : float) (cfg : Config) :
  exists l r,
    evaluate_locals yes_pct no_pct stake cfg = Returned l /\
    evaluate_market question yes_pct no_pct stake cfg = Returned r /\
    forall c, chosen_price l = Some c -> eq c 0 = true ->
      side l <> HOLD /\ shares l = Some 0 /\ gross_win_payout l = Some 0.
Proof.
  destruct (evaluate_locals_spec yes_pct no_pct stake cfg)
    as (l & Hl & _ & _ & _ & _ & _ & Hcase).
  exists l, (report question stake l). split; [exact Hl|].
  split; [exact (evaluate_market_report question _ _ _ _ _ Hl)|].
  intros c Hc Hzero.
  assert (Hgt : gt c 0 = false).
  { unfold gt, eq in *. destruct (eqb_not_ltb _ _ Hzero) as [_ ->]. reflexivity. }
  destruct Hcase as [(_ & _ & Hnone & _)|[(_ & _ & Hs & Hb)|(_ & _ & Hs & Hb)]].
  - rewrite Hnone in Hc; discriminate.
  - destruct Hb as (Hc' & _ & Hsh & Hgr & _).
    assert (E : c = fst (normalize yes_pct no_pct)) by congruence.
    subst c. rewrite Hgt in Hsh, Hgr.
    rewrite Hs. repeat split; [discriminate | exact Hsh | exact Hgr].
  - destruct Hb as (Hc' & _ & Hsh & Hgr & _).
    assert (E : c = snd (normalize yes_pct no_pct)) by congruence.
    subst c. rewrite Hgt in Hsh, Hgr.
    rewrite Hs. repeat split; [discriminate | exact Hsh | exact Hgr].
Qed.

(** A market quoted at 0 percent: YES is chosen at price 0. *)
Lemma zero_price_buys_no_shares_witness :
  exists l, evaluate_locals 0 None 100 default_config = Returned l /\
    chosen_price l = Some 0 /\
    side l = YES /\ shares l = Some 0 /\ gross_win_payout l = Some 0.
Proof.
  destruct (zero_price_buys_no_shares "q" 0 None 100 default_config)
    as (l & r & Hl & _ & H).
  exists l. split; [exact Hl|].
  vm_compute in Hl. injection Hl as <-.
  destruct (H 0 eq_refl eq_refl) as (_ & Hsh & Hgr).
  split; [reflexivity|]. split; [reflexivity|].
  split; [exact Hsh | exact Hgr].
Defined.

(** C10. When a side is chosen and the two per-dollar EVs and [min_ev] are
    numbers (none is NaN), the chosen side's per-dollar EV is
    [max(ev_per_yes, ev_per_no)], the value reported as EV per dollar, and
    it is greater than or equal to [min_ev]. *)
Theorem chosen_side_clears_threshold (yes_pct : float) (no_pct : option float)
    (stake : float) (cfg : Config) (l : Locals) :
  evaluate_locals yes_pct no_pct stake cfg = Returned l ->
  side l <> HOLD ->
  is_nan (ev_per_yes l) = false ->
  is_nan (ev_per_no l) = false ->
  is_nan (min_ev cfg) = false ->
  exists ev, chosen_ev l = Some ev /\
    ev = max (ev_per_yes l) (ev_per_no l) /\
    ge ev (min_ev cfg) = true /\
    forall question, ev_per_dollar (report question stake l) = round ev 4.
Proof.
  intros H Hside Hny Hnn Hnm.
  destruct (evaluate_locals_spec yes_pct no_pct stake cfg)
    as (l' & Hl & _ & _ & _ & Hey & Hen & Hcase).
  rewrite Hl in H; injection H as ->.
  rewrite <- Hey, <- Hen in Hcase.
  assert (Hmax : exists ev, chosen_ev l = Some ev /\
            ev = max (ev_per_yes l) (ev_per_no l) /\ ge ev (min_ev cfg) = true).
  { unfold chosen_ev, max.
    destruct Hcase as [(_ & Hs & _)|[(Hh & Hge & Hs & _)|(Hh & Hge & Hs & _)]].
    - contradiction.
    - rewrite Hs. exists (ev_per_yes l). split; [reflexivity|].
      unfold ge, gt, lt in *. split.
      + rewrite (leb_not_ltb _ _ Hge). reflexivity.
      + apply not_ltb_leb; [assumption ..|].
        destruct (ev_per_yes l <? min_ev cfg) eqn:Hlt; [|reflexivity].
        rewrite (leb_ltb_trans _ _ _ Hge Hlt) in Hh. discriminate.
    - rewrite Hs. exists (ev_per_no l). split; [reflexivity|].
      unfold ge, gt, lt in *.
      assert (Hlt : (ev_per_yes l <? ev_per_no l) = true)
        by (apply not_leb_ltb; assumption).
      split.
      + rewrite Hlt. reflexivity.
      + apply not_ltb_leb; [assumption ..|].
        destruct (ev_per_no l <? min_ev cfg) eqn:Hlt'; [|reflexivity].
        rewrite (ltb_trans _ _ _ Hlt Hlt') in Hh. discriminate. }
  destruct Hmax as (ev & Hc & Hev & Hthr).
  exists ev. split; [exact Hc|]. split; [exact Hev|]. split; [exact Hthr|].
  intros question. unfold report; cbn [ev_per_dollar].
  rewrite <- Hev. destruct (side l); [reflexivity .. | contradiction].
Qed.

(** At 62 percent YES is chosen with EV per dollar 0.9 - 0.62; at 38
    percent NO is chosen with EV per dollar (1 - (1 - 0.9)) - 0.62. *)
Lemma chosen_side_clears_threshold_witness :
  (exists l ev, evaluate_locals 62 None 100 default_config = Returned l /\
     side l = YES /\ chosen_ev l = Some ev /\
     ev = max (ev_per_yes l) (ev_per_no l) /\ ge ev 0 = true) /\
  (exists l ev, evaluate_locals 38 None 100 default_config = Returned l /\
     side l = NO /\ chosen_ev l = Some ev /\
     ev = max (ev_per_yes l) (ev_per_no l) /\ ge ev 0 = true).
Proof.
  split.
  - eexists.
    destruct (chosen_side_clears_threshold 62 None 100 default_config _ eq_refl)
      as (ev & H1 & H2 & H3 & _);
      [discriminate | reflexivity ..|].
    exists ev. repeat split; assumption.
  - eexists.
    destruct (chosen_side_clears_threshold 38 None 100 default_config _ eq_refl)
      as (ev & H1 & H2 & H3 & _);
      [discriminate | reflexivity ..|].
    exists ev. repeat split; assumption.
Defined.

(** C10, as stated, fails once a NaN is involved, since every comparison
    with NaN is false.  With [min_ev = nan] nothing is ever below the
    threshold: YES is chosen at 62 percent and its EV per dollar is not
    [>= min_ev].  With [yes_pct = nan] and a threshold of 0.5, NO is chosen
    with EV per dollar 0.2, below the threshold, while
    [max(ev_per_yes, ev_per_no)] is NaN. *)
Lemma nan_breaks_threshold :
  (exists l ev,
     evaluate_locals 62 None 100
       {| majority_accuracy := 0.9; min_ev := nan; fee_rate := 0 |} = Returned l /\
     side l = YES /\ chosen_ev l = Some ev /\ ge ev nan = false) /\
  (exists l ev,
     evaluate_locals nan (Some 0.3) 100
       {| majority_accuracy := 0.9; min_ev := 0.5; fee_rate := 0 |} = Returned l /\
     side l = NO /\ chosen_ev l = Some ev /\ ev = 0.2 /\
     ge ev 0.5 = false /\ lt ev 0.5 = true /\
     is_nan (max (ev_per_yes l) (ev_per_no l)) = true).
Proof.
  split; eexists; eexists; (split; [vm_compute; reflexivity|]);
    repeat split; vm_compute; reflexivity.
Qed.

(** C2 (amended). End-to-end example 1: 62 percent, no No input, stake
    100, accuracy 0.90, no fee, threshold 0.  YES is chosen at price 0.62,
    the win payout is 161.29 and the expected value is 45.16 dollars,
    which is [q_win * win_payout + (1 - q_win) * lose_payout - stake]. *)
Theorem example_62_percent :
  exists l r,
    evaluate_locals 62 None 100 default_config = Returned l /\
    evaluate_market "q" 62 None 100 default_config = Returned r /\
    side l = YES /\ q_yes l = 0.90 /\ chosen_price l = Some 0.62 /\
    chosen_q_win l = Some 0.90 /\
    to_the_cent (win_payout l) 161.29 = true /\
    to_the_cent (ev_dollars l) 45.16 = true /\
    ev_dollars l = (0.90 * win_payout l) + ((1.0 - 0.90) * lose_payout l) - 100 /\
    r_side r = YES /\ r_chosen_price r = Some 0.62 /\
    win_payout_if_correct r = 161.29 /\ r_ev_dollars r = 45.16.
Proof.
  eexists; eexists. split; [vm_compute; reflexivity|].
  split; [vm_compute; reflexivity|].
  repeat split; vm_compute; reflexivity.
Qed.

(** C2 as stated is false: the expected value of example 1 is not 55.16
    dollars, neither to the cent before rounding nor as reported. *)
Lemma example_62_percent_ev_not_55_16 :
  ~ (exists l r,
       evaluate_locals 62 None 100 default_config = Returned l /\
       evaluate_market "q" 62 None 100 default_config = Returned r /\
       side l = YES /\ chosen_price l = Some 0.62 /\
       to_the_cent (win_payout l) 161.29 = true /\
       (to_the_cent (ev_dollars l) 55.16 = true \/ r_ev_dollars r = 55.16)).
Proof.
  intros (l & r & Hl & Hr & _ & _ & _ & Hev).
  vm_compute in Hl. injection Hl as <-.
  vm_compute in Hr. injection Hr as <-.
  vm_compute in Hev. destruct Hev as [Hev|Hev]; [discriminate|].
  assert (H : (45.16 =? 55.16) = true) by (rewrite Hev; reflexivity).
  vm_compute in H. discriminate.
Qed.



(** C8 (amended). No stake is rejected: for every stake the evaluation
    returns, with lose payout 0.  When a side is bought at price [c] the
    win payout is the value of [stake / c] shares (no shares unless
    [c > 0]) less the fee on the profit.  It is zero when the stake is
    zero and the fee rate lies in [0, 1).  With a fee rate of zero, a
    price [c > 0] and a finite profit [stake / c - stake] it equals
    [stake / c]; for a negative stake it is then never above zero, and it
    is negative, not zero, unless the quotient [stake / c] is itself a
    zero. *)
Theorem stake_is_not_rejected (yes_pct : float) (no_pct : option float)
    (stake : float) (cfg : Config) :
  exists l,
    evaluate_locals yes_pct no_pct stake cfg = Returned l /\
    lose_payout l = 0 /\
    (forall c, chosen_price l = Some c ->
       win_payout l =
         (let sh := if gt c 0 then stake / c else 0 in
          sh * 1.0 - fee_rate cfg * (sh * 1.0 - stake))) /\
    (eq stake 0 = true ->
     ge (fee_rate cfg) 0 = true -> lt (fee_rate cfg) 1 = true ->
     eq (win_payout l) 0 = true) /\
    (forall c, chosen_price l = Some c -> gt c 0 = true ->
       eq (fee_rate cfg) 0 = true -> is_finite (stake / c - stake) = true ->
       eq (win_payout l) (stake / c) = true /\
       (lt stake 0 = true ->
        ge 0 (win_payout l) = true /\
        (eq (stake / c) 0 = false ->
         lt (win_payout l) 0 = true /\ eq (win_payout l) 0 = false))).
Proof.
  destruct (evaluate_locals_spec yes_pct no_pct stake cfg)
    as (l & Hl & _ & _ & _ & _ & _ & Hcase).
  exists l. split; [exact Hl|].
  assert (Hbuy : forall c q, bought l c q stake cfg ->
            lose_payout l = 0 /\
            (forall c', chosen_price l = Some c' ->
               win_payout l =
                 (let sh := if gt c' 0 then stake / c' else 0 in
                  sh * 1.0 - fee_rate cfg * (sh * 1.0 - stake))) /\
            (eq stake 0 = true ->
             ge (fee_rate cfg) 0 = true -> lt (fee_rate cfg) 1 = true ->
             eq (win_payout l) 0 = true)).
  { intros c q (Hc & _ & _ & _ & _ & Hw & Hlo & _).
    split; [exact Hlo|]. split.
    - intros c' Hc'. assert (c' = c) by congruence. subst c'. exact Hw.
    - intros Hs Hf0 Hf1. rewrite Hw. unfold eq, ge, lt, gt in *.
      destruct (eqb_zero_inv _ Hs) as [s Hstake].
      pose proof (unit_interval_finite _ Hf0 Hf1) as Hfin.
      assert (Hsh : exists u,
                Prim2SF ((if 0 <? c then stake / c else 0) * 1) = S754_zero u).
      { destruct (0 <? c) eqn:Hpos.
        - exists s. apply zero_mul_one. apply zero_div_pos; assumption.
        - exists false. apply zero_mul_one. apply Prim2SF_zero. }
      destruct Hsh as [u Hu].
      destruct (zero_sub_zero _ _ _ _ Hu Hstake) as [v Hv].
      destruct (finite_mul_zero _ _ _ Hfin Hv) as [w Hw'].
      destruct (zero_sub_zero _ _ _ _ Hu Hw') as [z Hz].
      exact (eqb_zero_intro _ _ Hz). }
  assert (Hcore : lose_payout l = 0 /\
            (forall c, chosen_price l = Some c ->
               win_payout l =
                 (let sh := if gt c 0 then stake / c else 0 in
                  sh * 1.0 - fee_rate cfg * (sh * 1.0 - stake))) /\
            (eq stake 0 = true ->
             ge (fee_rate cfg) 0 = true -> lt (fee_rate cfg) 1 = true ->
             eq (win_payout l) 0 = true)).
  { destruct Hcase as [(_ & _ & Hnone & _ & _ & _ & Hw & Hlo & _)
                      |[(_ & _ & _ & Hb)|(_ & _ & _ & Hb)]].
    - split; [exact Hlo|]. split.
      + intros c Hc. rewrite Hnone in Hc. discriminate.
      + intros _ _ _. rewrite Hw. reflexivity.
    - exact (Hbuy _ _ Hb).
    - exact (Hbuy _ _ Hb). }
  destruct Hcore as (Hlo & Hwin & Hzero).
  split; [exact Hlo|]. split; [exact Hwin|]. split; [exact Hzero|].
  intros c Hc Hpos Hfee Hfin.
  pose proof (Hwin c Hc) as Hw. cbv zeta in Hw. rewrite Hpos in Hw.
  unfold eq, lt, ge, gt in *.
  assert (He : (win_payout l =? stake / c) = true).
  { rewrite Hw. apply zero_fee_win_payout; assumption. }
  split; [exact He|]. intros Hneg.
  assert (Hle : (stake / c <=? 0) = true).
  { apply neg_div_pos; [exact Hneg | exact Hpos |].
    exact (sub_finite_l _ _ (is_finite_inv _ Hfin)). }
  pose proof (eqb_leb_trans _ _ _ He Hle) as Hwle.
  split; [exact Hwle|]. intros Hnz.
  pose proof (eqb_trans_false _ _ _ He Hnz) as Hwnz.
  split; [exact (leb_not_eqb_ltb _ _ Hwle Hwnz) | exact Hwnz].
Qed.

(** A zero stake at 62 percent with a 2 percent fee: YES is bought and
    every payout is zero.  A stake of -100 at 62 percent without a fee:
    the win payout equals -100 / 0.62 and is negative. *)
Lemma stake_is_not_rejected_witness :
  (exists l,
     evaluate_locals 62 None 0
       {| majority_accuracy := 0.9; min_ev := 0; fee_rate := 0.02 |} = Returned l /\
     side l = YES /\ lose_payout l = 0 /\ eq (win_payout l) 0 = true) /\
  (exists l,
     evaluate_locals 62 None (-100) default_config = Returned l /\
     chosen_price l = Some 0.62 /\
     eq (win_payout l) ((-100) / 0.62) = true /\
     lt (win_payout l) 0 = true /\ eq (win_payout l) 0 = false).
Proof.
  split.
  - destruct (stake_is_not_rejected 62 None 0
                {| majority_accuracy := 0.9; min_ev := 0; fee_rate := 0.02 |})
      as (l & Hl & Hlo & _ & Hw & _).
    exists l. split; [exact Hl|].
    split; [vm_compute in Hl; injection Hl as <-; reflexivity|].
    split; [exact Hlo|].
    apply Hw; vm_compute; reflexivity.
  - destruct (stake_is_not_rejected 62 None (-100) default_config)
      as (l & Hl & _ & _ & _ & Hneg).
    exists l. split; [exact Hl|].
    assert (Hc : chosen_price l = Some 0.62)
      by (vm_compute in Hl; injection Hl as <-; reflexivity).
    split; [exact Hc|].
    destruct (Hneg 0.62 Hc) as (He & Hs); try (vm_compute; reflexivity).
    split; [exact He|].
    destruct Hs as (_ & Hlt); [vm_compute; reflexivity|].
    apply Hlt. vm_compute. reflexivity.
Defined.

(** C8 as stated is false: a stake of -100 at 62 percent is not rejected,
    YES is bought, and the win payout is -161.29, not 0. *)
Lemma negative_stake_pays_nonzero :
  exists l r,
    evaluate_locals 62 None (-100) default_config = Returned l /\
    evaluate_market "q" 62 None (-100) default_config = Returned r /\
    side l = YES /\
    win_payout l = (-100) / 0.62 /\
    eq (win_payout l) 0 = false /\
    win_payout_if_correct r = -161.29 /\
    lose_payout_if_wrong r = 0.
Proof.
  eexists; eexists. split; [vm_compute; reflexivity|].
  split; [vm_compute; reflexivity|].
  repeat split; vm_compute; reflexivity.
Qed.

End PayoutProperties.

(** ** pull_30day.py: classification and quote resolution *)

Section Pull30dayProperties.
Import Py PyText PyVal Pull30day Fixtures.
Local Open Scope string_scope.
Context `{Library}.
Variable respond : list string -> string -> Quote.

(** What [summarize_binary_market] computes, in terms of the canonical
    identifiers and of the quotes in effect after the single-token
    queries. *)
Lemma summarize_binary_market_spec (m : Market) (price_map : PriceMap)
    (log : list string) :
  let yes_tid := canonical_tids m !! 0%nat in
  let no_tid := canonical_tids m !! 1%nat in
  let bulk_yes := bulk_quote price_map yes_tid in
  let bulk_no := bulk_quote price_map no_tid in
  let ry := with_single_fallback respond yes_tid bulk_yes log in
  let rn := with_single_fallback respond no_tid bulk_no (snd ry) in
  exists s,
    summarize_binary_market respond m price_map log = (s, snd rn) /\
    token_id (yes s) = yes_tid /\ token_id (no s) = no_tid /\
    q_yes_mid s = match from_quotes (fst ry) (fst rn) with
                  | Some q => Some q
                  | None => gamma_fallback m (canonical_outs m)
                  end.
Proof.
  unfold summarize_binary_market, canonical_tids, canonical_outs,
    mbind, Net_bind, net_bind, net_ret.
  destruct (yes_first _ _) as [outs tids]. cbn [fst snd].
  destruct (with_single_fallback respond (tids !! 0%nat) _ log) as [py l1].
  cbn [fst snd].
  destruct (with_single_fallback respond (tids !! 1%nat) _ l1) as [pn l2].
  cbn [fst snd].
  eexists. split; [reflexivity|]. cbn. repeat split; reflexivity.
Qed.

(** A token that has a bulk MID is not queried on its own. *)
Lemma quoted_is_not_fetched (tid : option string) (q : Quote) (mval : float)
    (log : list string) :
  MID q = Some mval -> with_single_fallback respond tid q log = (q, log).
Proof.
  intros Hm. unfold with_single_fallback, unquoted. rewrite Hm.
  destruct tid as [t|]; [|reflexivity].
  destruct (BUY q), (SELL q); rewrite ?andb_false_r; reflexivity.
Qed.

(** C3 (amended). The single-token query for the Yes identifier is made
    exactly when that identifier is non-empty and the bulk quotes hold no
    BUY, SELL or MID for it; it is made first, before any tier is looked
    at, whether or not the No side has a midpoint (the No identifier is
    queried next, under the same condition).  When the bulk quotes hold a
    No-side midpoint [mval], the No identifier is not queried, and the
    resolved probability is given by tiers 1-3 on the Yes quotes in effect
    (the answer to the query if it was made, the bulk quotes otherwise);
    it is [1 - mval] only when these hold neither a MID nor a BUY. *)
Theorem single_fetch_precedes_tiers (m : Market) (price_map : PriceMap)
    (log : list string) :
  let yes_tid := canonical_tids m !! 0%nat in
  let no_tid := canonical_tids m !! 1%nat in
  let bulk_yes := bulk_quote price_map yes_tid in
  let bulk_no := bulk_quote price_map no_tid in
  let asked_yes := present yes_tid && unquoted bulk_yes in
  let asked_no := present no_tid && unquoted bulk_no in
  let t := default "" yes_tid in
  let u := default "" no_tid in
  let p_yes := if asked_yes then respond log t else bulk_yes in
  exists s,
    summarize_binary_market respond m price_map log =
      (s, (log ++ (if asked_yes then [t] else [])
               ++ (if asked_no then [u] else []))%list) /\
    (forall mval, MID bulk_no = Some mval ->
       asked_no = false /\
       q_yes_mid s = match yes_tiers p_yes with
                     | Some q => Some q
                     | None => Some (1.0 - mval)%float
                     end).
Proof.
  intros yes_tid no_tid bulk_yes bulk_no asked_yes asked_no t u p_yes.
  destruct (summarize_binary_market_spec m price_map log)
    as (s & Hrun & _ & _ & Hq).
  fold yes_tid no_tid bulk_yes bulk_no in Hrun, Hq.
  assert (Hy : with_single_fallback respond yes_tid bulk_yes log
               = (p_yes, (log ++ (if asked_yes then [t] else []))%list)).
  { unfold with_single_fallback, p_yes, asked_yes, present, t.
    destruct yes_tid as [t0|]; cbn [default].
    - destruct (nonempty t0 && unquoted bulk_yes); cbn.
      + reflexivity.
      + rewrite app_nil_r. reflexivity.
    - cbn. rewrite app_nil_r. reflexivity. }
  assert (Hn : forall l, snd (with_single_fallback respond no_tid bulk_no l)
               = (l ++ (if asked_no then [u] else []))%list).
  { intros l. unfold with_single_fallback, asked_no, present, u.
    destruct no_tid as [u0|]; cbn [default].
    - destruct (nonempty u0 && unquoted bulk_no); cbn.
      + reflexivity.
      + rewrite app_nil_r. reflexivity.
    - cbn. rewrite app_nil_r. reflexivity. }
  rewrite Hy in Hrun, Hq. cbn [fst snd] in Hrun, Hq.
  rewrite Hn, <- (assoc_L (++)) in Hrun.
  exists s. split; [exact Hrun|].
  intros mval Hm.
  rewrite (quoted_is_not_fetched no_tid bulk_no mval _ Hm) in Hq.
  cbn [fst] in Hq. split.
  - unfold asked_no, unquoted. rewrite Hm.
    destruct (BUY bulk_no), (SELL bulk_no); apply andb_false_r.
  - rewrite Hq. unfold from_quotes. rewrite Hm.
    destruct (yes_tiers p_yes); reflexivity.
Qed.

(** Labels that read "no" then "yes" (in any letter case) with at least
    two identifiers: labels and identifiers are swapped together, and the
    summary reports the second identifier for Yes and the first for No. *)
Theorem no_first_labels_swap_identifiers (m : Market) (price_map : PriceMap)
    (log : list string) (o0 o1 t0 t1 : string) (rest : list string) :
  _coerce_outcomes (get m "outcomes") = Some [o0; o1] ->
  lower o0 = "no" -> lower o1 = "yes" ->
  parse_token_ids (parse_token_ids_field m) = t0 :: t1 :: rest ->
  let s := fst (summarize_binary_market respond m price_map log) in
  canonical_outs m = [o1; o0] /\ canonical_tids m = [t1; t0] /\
  token_id (yes s) = Some t1 /\ token_id (no s) = Some t0.
Proof.
  intros Ho Hl0 Hl1 Ht s.
  assert (Hc : canonical_outs m = [o1; o0] /\ canonical_tids m = [t1; t0]).
  { unfold canonical_outs, canonical_tids. rewrite Ho, Ht. cbn [default].
    unfold first_two. cbn [length Nat.leb firstn Datatypes.id].
    unfold yes_first. rewrite Hl0, Hl1. split; reflexivity. }
  destruct Hc as [Hco Hct]. split; [exact Hco|]. split; [exact Hct|].
  destruct (summarize_binary_market_spec m price_map log)
    as (s' & Hrun & Hy & Hn & _).
  unfold s. rewrite Hrun. cbn [fst]. rewrite Hy, Hn, Hct. split; reflexivity.
Qed.

(** End-to-end example 3: labels [["No"; "Yes"]] with identifiers
    [["tokA"; "tokB"]] classify to Yes = tokB, No = tokA, whatever the
    quotes are. *)
Lemma no_yes_market_is_swapped (price_map : PriceMap) (log : list string) :
  let s := fst (summarize_binary_market respond no_yes_market price_map log) in
  is_binary_yes_no no_yes_market = true /\
  canonical_outs no_yes_market = ["Yes"; "No"] /\
  canonical_tids no_yes_market = ["tokB"; "tokA"] /\
  token_id (yes s) = Some "tokB" /\ token_id (no s) = Some "tokA".
Proof.
  intros s.
  destruct (summarize_binary_market_spec no_yes_market price_map log)
    as (s' & Hrun & Hy & Hn & _).
  unfold s. rewrite Hrun. cbn [fst]. rewrite Hy, Hn.
  repeat split; vm_compute; reflexivity.
Qed.

(** C6, at labels taken from the alias sets.  The record with labels
    [["False"; "True"]] and identifiers [["tokA"; "tokB"]] is binary Yes/No
    for [is_binary_yes_no] ("False" is No-like, "True" is Yes-like, the
    No-like label first), but [summarize_binary_market] leaves labels and
    identifiers in place, whatever the quotes are: the identifier reported
    for Yes is tokA, the one paired with the No-like label. *)
Theorem alias_labels_keep_their_order (price_map : PriceMap) (log : list string) :
  let s := fst (summarize_binary_market respond false_true_market price_map log) in
  is_binary_yes_no false_true_market = true /\
  _is_no "False" = true /\ _is_yes "True" = true /\
  canonical_outs false_true_market = ["False"; "True"] /\
  canonical_tids false_true_market = ["tokA"; "tokB"] /\
  token_id (yes s) = Some "tokA" /\ token_id (no s) = Some "tokB".
Proof.
  intros s.
  destruct (summarize_binary_market_spec false_true_market price_map log)
    as (s' & Hrun & Hy & Hn & _).
  unfold s. rewrite Hrun. cbn [fst]. rewrite Hy, Hn.
  repeat split; vm_compute; reflexivity.
Qed.

End Pull30dayProperties.

Section Pull30dayExamples.
Import Py PyText PyVal Pull30day Fixtures.
Local Open Scope string_scope.
#[local] Existing Instance no_parsing.

(** With a best-sell as the only bulk quote of Yes and a No midpoint of
    0.3, no single-token query is made and the estimate is 1 - 0.3. *)
Lemma single_fetch_precedes_tiers_witness :
  exists s,
    summarize_binary_market answers_mid yes_no_market sell_and_no_mid [] = (s, []) /\
    q_yes_mid s = Some (1.0 - 0.3)%float.
Proof.
  destruct (single_fetch_precedes_tiers answers_mid yes_no_market sell_and_no_mid [])
    as (s & Hrun & Hq).
  exists s. split.
  - rewrite Hrun. vm_compute. reflexivity.
  - destruct (Hq 0.3%float) as [_ ->]; vm_compute; reflexivity.
Defined.

(** C3 as stated is false.  The bulk quotes hold nothing for the Yes
    token tokA and a midpoint of 0.3 for the No token tokB.  The Yes token
    is queried on its own all the same; when the exchange answers a
    midpoint of 0.4 the estimate is 0.4, not 1 - 0.3, and when it answers
    nothing the estimate is 1 - 0.3 but the query has been made. *)
Lemma yes_fetch_overrides_no_midpoint :
  unquoted (bulk_quote no_mid_only (Some "tokA")) = true /\
  MID (bulk_quote no_mid_only (Some "tokB")) = Some 0.3%float /\
  (exists s,
     summarize_binary_market answers_mid yes_no_market no_mid_only []
     = (s, ["tokA"]) /\
     token_id (yes s) = Some "tokA" /\ token_id (no s) = Some "tokB" /\
     q_yes_mid s = Some 0.4%float /\
     eq 0.4 (1.0 - 0.3) = false) /\
  (exists s,
     summarize_binary_market answers_nothing yes_no_market no_mid_only []
     = (s, ["tokA"]) /\
     q_yes_mid s = Some (1.0 - 0.3)%float).
Proof.
  split; [vm_compute; reflexivity|].
  split; [vm_compute; reflexivity|].
  split; eexists; (split; [vm_compute; reflexivity|]);
    repeat split; vm_compute; reflexivity.
Qed.

Lemma no_first_labels_swap_identifiers_witness :
  let s := fst (summarize_binary_market answers_nothing no_yes_market ∅ []) in
  canonical_outs no_yes_market = ["Yes"; "No"] /\
  canonical_tids no_yes_market = ["tokB"; "tokA"] /\
  token_id (yes s) = Some "tokB" /\ token_id (no s) = Some "tokA".
Proof.
  apply (no_first_labels_swap_identifiers answers_nothing no_yes_market ∅ []
           "No" "Yes" "tokA" "tokB" []); vm_compute; reflexivity.
Defined.

End Pull30dayExamples.

(** * Further properties of the code *)

(** ** payout_calc.py: side selection and payout, continued *)

Section PayoutMore.
Import Py PayoutCalc.
Local Open Scope float_scope.

(** The test of line 51, read off the side that was decided. *)
Lemma side_is_hold_iff (yes_pct : float) (no_pct : option float)
    (stake : float) (cfg : Config) (l : Locals) :
  evaluate_locals yes_pct no_pct stake cfg = Returned l ->
  (side l = HOLD <->
   lt (ev_per_yes l) (min_ev cfg) && lt (ev_per_no l) (min_ev cfg) = true).
Proof.
  intros H.
  destruct (evaluate_locals_spec yes_pct no_pct stake cfg)
    as (l' & Hl & _ & _ & _ & Hey & Hen & Hcase).
  rewrite Hl in H; injection H as ->.
  rewrite <- Hey, <- Hen in Hcase.
  destruct Hcase as [(Hh & Hs & _)|[(Hh & _ & Hs & _)|(Hh & _ & Hs & _)]];
    rewrite Hs, Hh; split; intros E; try discriminate; reflexivity.
Qed.

(** With a NaN threshold nothing is below the threshold: the decision is
    never HOLD, whatever the market and the stake. *)
Theorem nan_threshold_never_holds (yes_pct : float) (no_pct : option float)
    (stake : float) (cfg : Config) (l : Locals) :
  is_nan (min_ev cfg) = true ->
  evaluate_locals yes_pct no_pct stake cfg = Returned l ->
  side l <> HOLD.
Proof.
  intros Hn H Hs.
  apply (side_is_hold_iff _ _ _ _ _ H) in Hs.
  unfold lt in Hs. rewrite (ltb_nan_r _ _ Hn) in Hs. discriminate.
Qed.

Lemma nan_threshold_never_holds_witness :
  exists l,
    evaluate_locals 62 None 100
      {| majority_accuracy := 0.9; min_ev := nan; fee_rate := 0 |} = Returned l /\
    side l <> HOLD.
Proof.
  eexists. split; [reflexivity|].
  apply (nan_threshold_never_holds 62 None 100
           {| majority_accuracy := 0.9; min_ev := nan; fee_rate := 0 |});
    reflexivity.
Defined.

(** A NaN for the Yes percentage always ends in side NO: the calibrated
    probability is 0.5 (NaN is neither above nor below the No side), the EV
    of Yes is NaN, and NaN is neither below the threshold nor [>=] the EV
    of No. *)
Theorem nan_probability_selects_no (yes_pct : float) (no_pct : option float)
    (stake : float) (cfg : Config) (l : Locals) :
  is_nan yes_pct = true ->
  evaluate_locals yes_pct no_pct stake cfg = Returned l ->
  side l = NO /\ q_yes l = 0.5 /\ is_nan (p_yes l) = true /\
  is_nan (ev_per_yes l) = true.
Proof.
  intros Hn H.
  destruct (evaluate_locals_spec yes_pct no_pct stake cfg)
    as (l' & Hl & Hpy & Hpn & Hq & Hey & Hen & Hcase).
  rewrite Hl in H; injection H as ->.
  assert (Hp : fst (normalize yes_pct no_pct) = yes_pct).
  { unfold normalize, _as_prob, gt. rewrite (ltb_nan_r _ _ Hn). reflexivity. }
  rewrite Hp in *.
  assert (Hq5 : q_yes l = 0.5).
  { rewrite Hq. unfold calibrate, gt, lt.
    rewrite (ltb_nan_r _ _ Hn), (ltb_nan_l _ _ Hn). reflexivity. }
  assert (Hev : is_nan (ev_per_yes l) = true).
  { rewrite Hey. apply sub_nan_r. exact Hn. }
  rewrite <- Hey, <- Hen in Hcase.
  destruct Hcase as [(Hh & _)|[(_ & Hge & _)|(_ & _ & Hs & _)]].
  - unfold lt in Hh. rewrite (ltb_nan_l _ _ Hev) in Hh. discriminate.
  - unfold ge in Hge. rewrite (leb_nan_r _ _ Hev) in Hge. discriminate.
  - rewrite Hpy. repeat split; assumption.
Qed.

Lemma nan_probability_selects_no_witness :
  exists l,
    evaluate_locals nan (Some 30) 100 default_config = Returned l /\
    side l = NO /\ q_yes l = 0.5 /\ is_nan (p_yes l) = true /\
    is_nan (ev_per_yes l) = true.
Proof.
  eexists. split; [reflexivity|].
  apply (nan_probability_selects_no nan (Some 30) 100 default_config);
    reflexivity.
Defined.

(** Without a fee, a purchase at a positive price pays back [stake / price]
    when the side wins: the shares are [stake / price], the gross payout is
    that same number, and the win payout equals it, provided the profit
    [stake / price - stake] is a finite number. *)
Theorem zero_fee_pays_stake_over_price (yes_pct : float) (no_pct : option float)
    (stake : float) (cfg : Config) (l : Locals) (c : float) :
  evaluate_locals yes_pct no_pct stake cfg = Returned l ->
  chosen_price l = Some c ->
  gt c 0 = true ->
  eq (fee_rate cfg) 0 = true ->
  is_finite (stake / c - stake) = true ->
  shares l = Some (stake / c) /\
  gross_win_payout l = Some (stake / c) /\
  eq (win_payout l) (stake / c) = true /\
  lose_payout l = 0.
Proof.
  intros H Hc Hpos Hfee Hfin.
  destruct (evaluate_locals_spec yes_pct no_pct stake cfg)
    as (l' & Hl & _ & _ & _ & _ & _ & Hcase).
  rewrite Hl in H; injection H as ->.
  assert (Hb : exists q, bought l c q stake cfg).
  { destruct Hcase as [(_ & _ & Hnone & _)|[(_ & _ & _ & Hb)|(_ & _ & _ & Hb)]].
    - rewrite Hnone in Hc. discriminate.
    - pose proof Hb as (Hc' & _).
      assert (E : c = fst (normalize yes_pct no_pct)) by congruence.
      subst c. eauto.
    - pose proof Hb as (Hc' & _).
      assert (E : c = snd (normalize yes_pct no_pct)) by congruence.
      subst c. eauto. }
  destruct Hb as (q & _ & _ & Hsh & Hgr & _ & Hw & Hlo & _).
  rewrite Hpos in Hsh, Hgr, Hw. rewrite mul_one_r in Hgr, Hw.
  split; [exact Hsh|]. split; [exact Hgr|]. split; [|exact Hlo].
  rewrite Hw. unfold eq in *.
  destruct (eqb_zero_inv _ Hfee) as [s Hz].
  pose proof (is_finite_inv _ Hfin) as Hd.
  destruct (zero_mul_finite _ _ _ Hz Hd) as [u Hu].
  apply (sub_zero_eqb _ _ u); [|exact Hu].
  exact (sub_finite_l _ _ Hd).
Qed.

Lemma zero_fee_pays_stake_over_price_witness :
  exists l,
    evaluate_locals 62 None 100 default_config = Returned l /\
    shares l = Some (100 / 0.62) /\
    gross_win_payout l = Some (100 / 0.62) /\
    eq (win_payout l) (100 / 0.62) = true /\
    lose_payout l = 0.
Proof.
  eexists. split; [reflexivity|].
  apply (zero_fee_pays_stake_over_price 62 None 100 default_config _ 0.62);
    reflexivity.
Defined.

End PayoutMore.

(** ** payout_calc.py: the interactive session *)

Section SessionProperties.
Import Py PyText PyVal PayoutCalc PayoutMain.
Local Open Scope string_scope.
Context `{Library}.

(** [_parse_float] hands back the first typed line that it can accept, and
    nothing else: the lines before it were all refused by [float] with
    [ValueError] (and were not blank where a blank is allowed), the value is
    what [float] made of that line, stripped, and [None] is returned only
    for a blank line when blanks are allowed.  In particular a blank line is
    asked again when blanks are not allowed. *)
Theorem parse_float_takes_first_accepted (allow_blank : bool)
    (lines : list string) (v : option float) (rest : list string) :
  _parse_float allow_blank lines = Read v rest ->
  exists skipped line,
    lines = (skipped ++ line :: rest)%list /\
    Forall (fun l => float_of_text (strip l) = Raised ValueError /\
                     (allow_blank = true -> nonempty (strip l) = true)) skipped /\
    match v with
    | Some f => float_of_text (strip line) = Returned f /\
                (allow_blank = true -> nonempty (strip line) = true)
    | None => allow_blank = true /\ strip line = ""
    end.
Proof.
  induction lines as [|line0 lines IH]; intros Hr; [discriminate|].
  cbn [_parse_float] in Hr.
  destruct (allow_blank && negb (nonempty (strip line0))) eqn:Hblank.
  - injection Hr as <- <-. exists [], line0.
    split; [reflexivity|]. split; [constructor|].
    apply andb_prop in Hblank. destruct Hblank as [-> Hb].
    split; [reflexivity|].
    destruct (strip line0); [reflexivity | discriminate].
  - assert (Hnb : allow_blank = true -> nonempty (strip line0) = true).
    { intros ->. cbn in Hblank. destruct (nonempty (strip line0));
        [reflexivity | discriminate]. }
    destruct (float_of_text (strip line0)) as [f|e] eqn:Hf.
    + injection Hr as <- <-. exists [], line0.
      split; [reflexivity|]. split; [constructor|]. split; assumption.
    + destruct e; try discriminate.
      destruct (IH Hr) as (skipped & line & -> & Hsk & Hv).
      exists (line0 :: skipped), line.
      split; [reflexivity|]. split; [|exact Hv].
      constructor; [split; assumption | exact Hsk].
Qed.

End SessionProperties.

Section SessionExamples.
Import Py PyText PyVal PayoutCalc PayoutMain Samples.
Local Open Scope string_scope.

(** Two refused lines, then " 62 ": the number is read and the line after
    it is left to be read next. *)
Lemma parse_float_takes_first_accepted_witness :
  exists skipped line,
    ["abc"; ""; " 62 "; "next"] = (skipped ++ line :: ["next"])%list /\
    Forall (fun l => @float_of_text reads_62 (strip l) = Raised ValueError /\
                     (false = true -> nonempty (strip l) = true)) skipped /\
    @float_of_text reads_62 (strip line) = Returned 62%float /\
    (false = true -> nonempty (strip line) = true).
Proof.
  apply (@parse_float_takes_first_accepted reads_62 false
           ["abc"; ""; " 62 "; "next"] (Some 62%float) ["next"]).
  reflexivity.
Defined.



End SessionExamples.

(** ** Text *)

Section TextFacts.
Import PyText.
Local Open Scope string_scope.

Ltac by_cases_on_char c :=
  destruct c as [[|] [|] [|] [|] [|] [|] [|] [|]]; reflexivity.

Lemma lower_char_idem (c : ascii) : lower_char (lower_char c) = lower_char c.
Proof. by_cases_on_char c. Qed.

Lemma lower_upper_char (c : ascii) : lower_char (upper_char c) = lower_char c.
Proof. by_cases_on_char c. Qed.

Lemma lower_idem (s : string) : lower (lower s) = lower s.
Proof.
  induction s as [|c r IH]; [reflexivity|].
  cbn [lower]. rewrite lower_char_idem, IH. reflexivity.
Qed.

(** Lower-casing forgets the capitalization. *)
Lemma lower_capitalize (s : string) : lower (capitalize s) = lower s.
Proof.
  destruct s as [|c r]; [reflexivity|].
  cbn [capitalize lower]. rewrite lower_upper_char, lower_idem. reflexivity.
Qed.

Lemma nonempty_capitalize (s : string) : nonempty (capitalize s) = nonempty s.
Proof. destruct s; reflexivity. Qed.

(** The characters of a text. *)
Abbreviation chars := list_ascii_of_string.

Lemma lstrip_chars (s : string) (c : ascii) :
  c ∈ chars (lstrip s) -> c ∈ chars s.
Proof.
  induction s as [|d r IH]; cbn [lstrip list_ascii_of_string]; [tauto|].
  destruct (is_space d); [|tauto].
  intros Hc. right. apply IH. exact Hc.
Qed.

Lemma rstrip_chars (s : string) (c : ascii) :
  c ∈ chars (rstrip s) -> c ∈ chars s.
Proof.
  revert c. induction s as [|d r IH]; intros c; cbn [rstrip list_ascii_of_string]; [tauto|].
  destruct (rstrip r) as [|e r'] eqn:Hr.
  - destruct (is_space d); cbn [list_ascii_of_string].
    + intros Hc. inversion Hc.
    + intros Hc. apply elem_of_cons in Hc. destruct Hc as [->|Hc];
        [left | inversion Hc].
  - cbn [list_ascii_of_string]. intros Hc. apply elem_of_cons in Hc.
    destruct Hc as [->|Hc]; [left | right; apply IH; exact Hc].
Qed.

Lemma strip_chars (s : string) (c : ascii) :
  c ∈ chars (strip s) -> c ∈ chars s.
Proof. intros Hc. apply lstrip_chars, rstrip_chars. exact Hc. Qed.

Lemma rstrip_cons (d : ascii) (r : string) :
  rstrip (String d r) =
  match rstrip r with
  | EmptyString => if is_space d then EmptyString else String d EmptyString
  | r' => String d r'
  end.
Proof. reflexivity. Qed.

Lemma rstrip_idem (s : string) : rstrip (rstrip s) = rstrip s.
Proof.
  induction s as [|d r IH]; [reflexivity|].
  rewrite rstrip_cons. destruct (rstrip r) as [|e r'] eqn:Hr.
  - destruct (is_space d) eqn:Hd; [reflexivity|].
    cbn [rstrip]. rewrite Hd. reflexivity.
  - rewrite rstrip_cons, IH. reflexivity.
Qed.

(** Stripping on the right keeps a first character that is not a space. *)
Lemma lstrip_rstrip (s : string) : lstrip (rstrip (lstrip s)) = rstrip (lstrip s).
Proof.
  induction s as [|d r IH]; [reflexivity|].
  cbn [lstrip]. destruct (is_space d) eqn:Hd; [exact IH|].
  cbn [rstrip]. destruct (rstrip r) as [|e r'].
  - rewrite Hd. cbn [lstrip]. rewrite Hd. reflexivity.
  - cbn [lstrip]. rewrite Hd. reflexivity.
Qed.

Lemma strip_idem (s : string) : strip (strip s) = strip s.
Proof. unfold strip. rewrite lstrip_rstrip, rstrip_idem. reflexivity. Qed.

(** Case mapping leaves spaces spaces and the other characters other
    characters. *)
Lemma is_space_upper_char (c : ascii) : is_space (upper_char c) = is_space c.
Proof. by_cases_on_char c. Qed.

Lemma is_space_lower_char (c : ascii) : is_space (lower_char c) = is_space c.
Proof. by_cases_on_char c. Qed.

Lemma rstrip_lower (s : string) : rstrip (lower s) = lower (rstrip s).
Proof.
  induction s as [|d r IH]; [reflexivity|].
  cbn [lower]. rewrite !rstrip_cons, IH.
  destruct (rstrip r) as [|e r']; cbn [lower]; [|reflexivity].
  rewrite is_space_lower_char. destruct (is_space d); reflexivity.
Qed.

Lemma length_lstrip (s : string) : (String.length (lstrip s) <= String.length s)%nat.
Proof.
  induction s as [|d r IH]; cbn [lstrip String.length]; [lia|].
  destruct (is_space d); cbn [String.length]; lia.
Qed.

Lemma length_rstrip (s : string) : (String.length (rstrip s) <= String.length s)%nat.
Proof.
  induction s as [|d r IH]; [cbn; lia|].
  rewrite rstrip_cons. destruct (rstrip r) as [|e r'].
  - destruct (is_space d); cbn [String.length]; lia.
  - cbn [String.length] in *. lia.
Qed.

(** A trimmed text starts with a character that is not a space and has
    nothing to trim on the right. *)
Lemma strip_fixed_inv (c : ascii) (r : string) :
  strip (String c r) = String c r -> is_space c = false /\ rstrip r = r.
Proof.
  unfold strip. cbn [lstrip]. destruct (is_space c) eqn:Hc.
  - intros E. exfalso.
    pose proof (length_rstrip (lstrip r)) as H1.
    pose proof (length_lstrip r) as H2.
    rewrite E in H1. cbn [String.length] in H1. lia.
  - rewrite rstrip_cons. intros E. split; [reflexivity|].
    destruct (rstrip r) as [|e r'].
    + rewrite Hc in E. injection E as <-. reflexivity.
    + injection E as <-. reflexivity.
Qed.

(** Capitalizing a trimmed text leaves it trimmed. *)
Lemma strip_capitalize (t : string) : strip t = t -> strip (capitalize t) = capitalize t.
Proof.
  destruct t as [|c r]; [reflexivity|]. intros E.
  destruct (strip_fixed_inv c r E) as [Hc Hr].
  unfold strip. cbn [capitalize lstrip].
  rewrite is_space_upper_char, Hc, rstrip_cons, rstrip_lower, Hr.
  destruct (lower r); [rewrite is_space_upper_char, Hc|]; reflexivity.
Qed.

(** No part of a split holds the separator. *)
Lemma split_parts (sep : ascii) (s : string) :
  Forall (fun t => sep ∉ chars t) (split sep s).
Proof.
  induction s as [|c r IH]; cbn [split].
  - constructor; [|constructor]. cbn. apply not_elem_of_nil.
  - destruct (Ascii.eqb_spec c sep) as [->|Hne].
    + constructor; [cbn; apply not_elem_of_nil | exact IH].
    + destruct (split sep r) as [|h t].
      * constructor; [|constructor]. cbn. intros Hc.
        apply elem_of_cons in Hc. destruct Hc as [E|Hc];
          [congruence | inversion Hc].
      * inversion IH as [|? ? Hh Ht]; subst. constructor; [|exact Ht].
        cbn. intros Hc. apply elem_of_cons in Hc.
        destruct Hc as [E|Hc]; [congruence | contradiction].
Qed.

End TextFacts.

(** ** pull_30day.py: parsing and classification, continued *)

Section Pull30dayMore.
Import Py PyText PyVal Pull30day.
Local Open Scope string_scope.
Context `{Library}.

(** Whatever [_coerce_outcomes] hands back is a list of exactly two
    labels, none of them empty and none with a space left at either end:
    the empty items were dropped after the trimming, and the
    capitalization that follows neither empties a label nor gives it a
    space to trim. *)
Theorem coerce_outcomes_gives_two_labels (raw : pyval) (outs : list string) :
  _coerce_outcomes raw = Some outs ->
  length outs = 2%nat /\
  Forall (fun o => nonempty o = true /\ strip o = o) outs.
Proof.
  assert (Hfin : forall l : list string,
            Forall (fun t => nonempty t = true /\ strip t = t) l ->
            (if negb (length l =? 2)%nat then None else Some (capitalize <$> l))
            = Some outs ->
            length outs = 2%nat /\
            Forall (fun o => nonempty o = true /\ strip o = o) outs).
  { intros l Hl Hs.
    destruct (length l =? 2)%nat eqn:Hlen; cbn in Hs; [|discriminate].
    injection Hs as <-. apply Nat.eqb_eq in Hlen.
    split; [rewrite length_fmap; exact Hlen|].
    apply Forall_fmap. eapply Forall_impl; [exact Hl|].
    intros t [Hn Ht]. cbn. rewrite nonempty_capitalize.
    split; [exact Hn | exact (strip_capitalize t Ht)]. }
  assert (Hf : forall (A : Type) (g : A -> string) (l : list A),
            Forall (fun t => nonempty t = true /\ strip t = t)
              (filter (fun t => nonempty t = true)
                 ((fun x => strip (g x)) <$> l))).
  { intros A g l. apply Forall_forall. intros t Ht.
    apply list_elem_of_filter in Ht. destruct Ht as [Hn Hin].
    apply list_elem_of_fmap in Hin. destruct Hin as (x & -> & _).
    split; [exact Hn | apply strip_idem]. }
  unfold _coerce_outcomes. destruct raw as [| | | |s0|l]; try discriminate.
  - destruct (startswith "[" (strip s0) && endswith "]" (strip s0)).
    + destruct (_ ≫= _); apply Hfin;
        [apply Hf | apply (Hf string (fun t => t))].
    + apply Hfin. apply (Hf string (fun t => t)).
  - apply Hfin, Hf.
Qed.

(** For two text labels given as a native list, the check trims them and
    ignores their letter case, and accepts them exactly when one is in
    {yes, y, true, 1} and the other in {no, n, false, 0}, in either
    order. *)
Theorem is_binary_yes_no_for_text_labels (m : Market) (a b : string) :
  get m "outcomes" = PList [PStr a; PStr b] ->
  nonempty (strip a) = true -> nonempty (strip b) = true ->
  is_binary_yes_no m =
    (bool_decide (lower (strip a) ∈ YES_ALIASES) &&
     bool_decide (lower (strip b) ∈ NO_ALIASES)) ||
    (bool_decide (lower (strip b) ∈ YES_ALIASES) &&
     bool_decide (lower (strip a) ∈ NO_ALIASES)).
Proof.
  intros Hm Ha Hb.
  assert (Hyes : forall x, _is_yes (capitalize x)
                           = bool_decide (lower x ∈ YES_ALIASES)).
  { intros x. unfold _is_yes. rewrite lower_capitalize.
    destruct (String.eqb_spec (lower x) "yes") as [->|_];
      [reflexivity | apply orb_false_r]. }
  assert (Hno : forall x, _is_no (capitalize x)
                          = bool_decide (lower x ∈ NO_ALIASES)).
  { intros x. unfold _is_no. rewrite lower_capitalize.
    destruct (String.eqb_spec (lower x) "no") as [->|_];
      [reflexivity | apply orb_false_r]. }
  unfold is_binary_yes_no. rewrite Hm. unfold _coerce_outcomes, stripped_nonempty.
  cbn [fmap list_fmap str]. rewrite !filter_cons, filter_nil.
  rewrite !decide_True by assumption. cbn [length Nat.eqb negb fmap list_fmap].
  rewrite !Hyes, !Hno. reflexivity.
Qed.

(** Swapping the two entries of [outcomes], whatever they are, does not
    change whether the record counts as binary Yes/No. *)
Theorem is_binary_yes_no_ignores_order (m m' : Market) (x y : pyval) :
  get m "outcomes" = PList [x; y] ->
  get m' "outcomes" = PList [y; x] ->
  is_binary_yes_no m = is_binary_yes_no m'.
Proof.
  intros Hm Hm'. unfold is_binary_yes_no. rewrite Hm, Hm'.
  unfold _coerce_outcomes, stripped_nonempty. cbn [fmap list_fmap].
  rewrite !filter_cons, filter_nil.
  destruct (decide (nonempty (strip (str x)) = true));
    destruct (decide (nonempty (strip (str y)) = true));
    cbn [length Nat.eqb negb fmap list_fmap]; try reflexivity.
  apply orb_comm.
Qed.

(** Token identifiers written as text: every identifier that comes out is
    trimmed, non-empty and without a comma; empty fields are dropped. *)
Theorem parse_token_ids_of_text (s : string) :
  Forall (fun t => nonempty t = true /\ strip t = t /\
                   ","%char ∉ list_ascii_of_string t)
    (parse_token_ids (PStr s)).
Proof.
  unfold parse_token_ids, comma_fields. cbn [str].
  apply Forall_forall. intros t Ht.
  apply list_elem_of_filter in Ht. destruct Ht as [Hne Ht].
  apply list_elem_of_fmap in Ht. destruct Ht as (u & -> & Hu).
  split; [exact Hne|]. split; [apply strip_idem|].
  intros Hc. apply strip_chars in Hc.
  pose proof (split_parts ","%char s) as Hp.
  rewrite Forall_forall in Hp. exact (Hp u Hu Hc).
Qed.

(** A native list of prices is converted as a whole or not at all: the
    result is the list of the [float] of every item, and it is [None] as
    soon as one item is refused. *)
Theorem parse_outcome_prices_of_list (l : list pyval) (fs : list float) :
  _parse_outcome_prices (PList l) = Some fs <->
  Forall2 (fun x f => to_float x = Returned f) l fs.
Proof.
  cbn [_parse_outcome_prices].
  assert (Hfl : forall l fs, floats l = Returned fs <->
                  Forall2 (fun x f => to_float x = Returned f) l fs).
  { clear l fs. induction l as [|x l IH]; intros fs; cbn [floats].
    - split.
      + intros E. injection E as <-. constructor.
      + intros E. inversion E. reflexivity.
    - destruct (to_float x) as [f|e] eqn:Hx; cbn.
      + destruct (floats l) as [gs|e] eqn:Hl; cbn.
        * split.
          -- intros E. injection E as <-. constructor; [exact Hx|].
             apply IH. reflexivity.
          -- intros E. inversion E as [|? g ? gs' Hg Hgs]; subst.
             apply IH in Hgs. congruence.
        * split; [discriminate|].
          intros E. inversion E as [|? g ? gs' Hg Hgs]; subst.
          apply IH in Hgs. discriminate.
      + split; [discriminate|].
        intros E. inversion E as [|? g ? gs' Hg Hgs]; subst. congruence. }
  rewrite <- Hfl. destruct (floats l); split; congruence.
Qed.

End Pull30dayMore.

(** ** pull_30day.py: summarization, continued *)

Section SummarizeMore.
Import Py PyText PyVal Pull30day.
Local Open Scope string_scope.
Context `{Library}.
Variable respond : list string -> string -> Quote.

(** The fields of a summary that do not depend on the quotes, and the
    majority side as a function of the estimate. *)
Lemma summarize_binary_market_fields (m : Market) (price_map : PriceMap)
    (log : list string) :
  let s := fst (summarize_binary_market respond m price_map log) in
  id s = get m "id" /\ slug s = get m "slug" /\
  question s = get m "question" /\ category s = get m "category" /\
  endDate s = get m "endDate" /\ binary s = true /\
  majority_side s = match q_yes_mid s with
                    | Some q => if ge q 0.5 then Some "YES" else Some "NO"
                    | None => None
                    end.
Proof.
  unfold summarize_binary_market, mbind, Net_bind, net_bind, net_ret.
  destruct (yes_first _ _) as [outs tids].
  destruct (with_single_fallback respond (tids !! 0%nat) _ log) as [py l1].
  destruct (with_single_fallback respond (tids !! 1%nat) _ l1) as [pn l2].
  cbn. repeat split; reflexivity.
Qed.

(** What one token costs in single queries: none if it is absent, empty or
    has a bulk quote, one otherwise. *)
Lemma with_single_fallback_log (tid : option string) (q : Quote)
    (log : list string) :
  with_single_fallback respond tid q log =
  if present tid && unquoted q
  then (respond log (default "" tid), (log ++ [default "" tid])%list)
  else (q, log).
Proof.
  unfold with_single_fallback, present. destruct tid as [t|]; [|reflexivity].
  cbn [default]. destruct (nonempty t && unquoted q); reflexivity.
Qed.

(** A bulk midpoint for the Yes token settles the estimate: it is that
    midpoint whatever else is known (best buy and sell, the No side, the
    record's own prices), the Yes token is not queried on its own, and the
    majority side is YES exactly when the midpoint is [>= 0.5]. *)
Theorem bulk_yes_midpoint_wins (m : Market) (price_map : PriceMap)
    (log : list string) (mid : float) :
  let yes_tid := canonical_tids m !! 0%nat in
  let no_tid := canonical_tids m !! 1%nat in
  let run := summarize_binary_market respond m price_map log in
  MID (bulk_quote price_map yes_tid) = Some mid ->
  q_yes_mid (fst run) = Some mid /\
  majority_side (fst run) = Some (if ge mid 0.5 then "YES" else "NO") /\
  snd run = (log ++ if present no_tid && unquoted (bulk_quote price_map no_tid)
                    then [default "" no_tid] else [])%list.
Proof.
  intros yes_tid no_tid run Hmid.
  destruct (summarize_binary_market_spec respond m price_map log)
    as (s & Hrun & _ & _ & Hq).
  fold yes_tid no_tid in Hrun, Hq.
  rewrite (quoted_is_not_fetched respond yes_tid _ mid log Hmid) in Hrun, Hq.
  cbn [fst snd] in Hrun, Hq.
  pose proof (summarize_binary_market_fields m price_map log) as Hf.
  cbv zeta in Hf. destruct Hf as (_ & _ & _ & _ & _ & _ & Hmaj).
  fold run in Hmaj. unfold run in *. rewrite Hrun in *. cbn [fst snd] in *.
  assert (Hq' : q_yes_mid s = Some mid).
  { rewrite Hq. unfold from_quotes, yes_tiers. rewrite Hmid.
    destruct (MID _); reflexivity. }
  split; [exact Hq'|]. split.
  - rewrite Hmaj, Hq'. destruct (ge mid 0.5); reflexivity.
  - rewrite with_single_fallback_log.
    destruct (present no_tid && unquoted (bulk_quote price_map no_tid));
      cbn [snd]; [reflexivity | rewrite app_nil_r; reflexivity].
Qed.

(** The log after a summary: the queries of [single_queries] are added. *)
Lemma summarize_binary_market_log (m : Market) (price_map : PriceMap)
    (log : list string) :
  snd (summarize_binary_market respond m price_map log) =
  (log ++ single_queries m price_map)%list.
Proof.
  destruct (summarize_binary_market_spec respond m price_map log)
    as (s & Hrun & _ & _ & _).
  rewrite Hrun. cbn [snd]. rewrite !with_single_fallback_log.
  unfold single_queries.
  destruct (present (canonical_tids m !! 0%nat) && _);
    destruct (present (canonical_tids m !! 1%nat) && _); cbn [fst snd];
    rewrite ?app_nil_r, <- ?(assoc_L (++)); reflexivity.
Qed.

Lemma single_queries_length (m : Market) (price_map : PriceMap) :
  (length (single_queries m price_map) <= 2)%nat.
Proof.
  unfold single_queries.
  destruct (present (canonical_tids m !! 0%nat) && _);
    destruct (present (canonical_tids m !! 1%nat) && _); cbn; lia.
Qed.

Lemma single_queries_needed (m : Market) (price_map : PriceMap) :
  Forall (fun t => t ∈ canonical_tids m /\ nonempty t = true /\
                   unquoted (default no_quote (price_map !! t)) = true)
    (single_queries m price_map).
Proof.
  unfold single_queries. set (tids := canonical_tids m).
  assert (Hq : forall tid, tid = tids !! 0%nat \/ tid = tids !! 1%nat ->
            Forall (fun t => t ∈ tids /\ nonempty t = true /\
                             unquoted (default no_quote (price_map !! t)) = true)
              (if present tid && unquoted (bulk_quote price_map tid)
               then [default "" tid] else [])).
  { intros tid Htid.
    destruct (present tid && unquoted (bulk_quote price_map tid)) eqn:Hc;
      [|constructor].
    apply andb_prop in Hc. destruct Hc as [Hp Hu].
    destruct tid as [t|]; [|discriminate]. cbn [default present] in *.
    repeat constructor.
    - apply list_elem_of_lookup. destruct Htid as [Ht|Ht]; eauto.
    - exact Hp.
    - unfold bulk_quote in Hu. rewrite Hp in Hu. exact Hu. }
  apply Forall_app. split; apply Hq; auto.
Qed.

(** A summary costs at most two single queries, each for one of the two
    canonical identifiers, never for an empty identifier and never for a
    token that has a BUY, a SELL or a MID among the bulk quotes; the
    earlier queries stay in the log. *)
Theorem single_queries_are_few_and_needed (m : Market) (price_map : PriceMap)
    (log : list string) :
  exists queries,
    snd (summarize_binary_market respond m price_map log) = (log ++ queries)%list /\
    (length queries <= 2)%nat /\
    Forall (fun t => t ∈ canonical_tids m /\ nonempty t = true /\
                     unquoted (default no_quote (price_map !! t)) = true)
      queries.
Proof.
  exists (single_queries m price_map).
  split; [apply summarize_binary_market_log|].
  split; [apply single_queries_length | apply single_queries_needed].
Qed.

(** When no quote is known at all (nothing in bulk, nothing from the
    single queries), the estimate is read from [outcomePrices] at the
    position the label "yes" has after the reordering.  For labels that
    read "no", "yes": with two or more token identifiers the labels have
    been swapped and the first price is taken; with fewer identifiers they
    have not and the second price is taken. *)
Theorem outcome_price_follows_reordered_labels (m : Market)
    (log : list string) (o0 o1 : string) (p0 p1 : float) (more : list float) :
  (forall earlier t, respond earlier t = no_quote) ->
  _coerce_outcomes (get m "outcomes") = Some [o0; o1] ->
  lower o0 = "no" -> lower o1 = "yes" ->
  _parse_outcome_prices (get m "outcomePrices") = Some (p0 :: p1 :: more) ->
  q_yes_mid (fst (summarize_binary_market respond m ∅ log)) =
    Some (if (2 <=? length (parse_token_ids (parse_token_ids_field m)))%nat
          then p0 else p1).
Proof.
  intros Hnone Ho Hl0 Hl1 Hp.
  destruct (summarize_binary_market_spec respond m ∅ log)
    as (s & Hrun & _ & _ & Hq).
  rewrite Hrun. cbn [fst]. rewrite Hq. clear Hrun Hq.
  assert (Hempty : forall tid l,
            fst (with_single_fallback respond tid (bulk_quote ∅ tid) l) = no_quote).
  { intros tid l. rewrite with_single_fallback_log.
    assert (Hb : bulk_quote ∅ tid = no_quote).
    { unfold bulk_quote. destruct tid as [t|]; [|reflexivity].
      destruct (nonempty t); [|reflexivity]. rewrite lookup_empty. reflexivity. }
    rewrite Hb. destruct (present tid && unquoted no_quote);
      cbn [fst]; [apply Hnone | reflexivity]. }
  rewrite !Hempty. cbn [from_quotes yes_tiers no_quote MID BUY SELL].
  unfold gamma_fallback. rewrite Hp. cbn [length Nat.leb].
  unfold canonical_outs. rewrite Ho. cbn [default]. unfold Datatypes.id.
  unfold first_two, yes_first.
  destruct (parse_token_ids (parse_token_ids_field m)) as [|t0 [|t1 rest]];
    cbn [length Nat.leb fst]; [rewrite Hl0, Hl1; reflexivity .. |].
  change (take 2 (t0 :: t1 :: rest)) with [t0; t1].
  rewrite Hl0, Hl1.
  change (String.eqb "no" "no" && String.eqb "yes" "yes") with true.
  cbn [fst]. rewrite Hl1. reflexivity.
Qed.

End SummarizeMore.

Section Pull30dayMoreExamples.
Import Py PyText PyVal Pull30day Fixtures.
Local Open Scope string_scope.
#[local] Existing Instance no_parsing.

Lemma coerce_outcomes_gives_two_labels_witness :
  length ["Yes"; "No"] = 2%nat /\
  Forall (fun o => nonempty o = true /\ strip o = o) ["Yes"; "No"].
Proof.
  apply (coerce_outcomes_gives_two_labels (PList [PStr " yES "; PStr "NO"])).
  vm_compute. reflexivity.
Defined.

Lemma is_binary_yes_no_for_text_labels_witness :
  is_binary_yes_no (market [" n "; "TRUE"] []) = true /\
  is_binary_yes_no (market ["yes"; "maybe"] []) = false.
Proof.
  split.
  - rewrite (is_binary_yes_no_for_text_labels (market [" n "; "TRUE"] [])
               " n " "TRUE"); vm_compute; reflexivity.
  - rewrite (is_binary_yes_no_for_text_labels (market ["yes"; "maybe"] [])
               "yes" "maybe"); vm_compute; reflexivity.
Defined.

Lemma is_binary_yes_no_ignores_order_witness :
  is_binary_yes_no yes_no_market = is_binary_yes_no no_yes_market.
Proof.
  apply (is_binary_yes_no_ignores_order yes_no_market no_yes_market
           (PStr "Yes") (PStr "No")); vm_compute; reflexivity.
Defined.

End Pull30dayMoreExamples.

Section SummarizeMoreExamples.
Import Py PyText PyVal Pull30day Fixtures Samples.
Local Open Scope string_scope.
#[local] Existing Instance no_parsing.

(** A bulk midpoint of 0.7 for tokA: the estimate is 0.7, the side is YES
    and only tokB is queried. *)
Lemma bulk_yes_midpoint_wins_witness :
  let run := summarize_binary_market answers_mid yes_no_market yes_mid_only [] in
  q_yes_mid (fst run) = Some 0.7%float /\
  majority_side (fst run) = Some "YES" /\
  snd run = ["tokB"].
Proof.
  apply (bulk_yes_midpoint_wins answers_mid yes_no_market yes_mid_only []
           0.7%float).
  vm_compute. reflexivity.
Defined.

(** Labels No, Yes with prices 0.2, 0.8: with two identifiers the estimate
    for Yes is 0.2, with one it is 0.8. *)
Lemma outcome_price_follows_reordered_labels_witness :
  q_yes_mid (fst (summarize_binary_market answers_nothing
                    (no_yes_priced ["tokA"; "tokB"]) ∅ [])) = Some 0.2%float /\
  q_yes_mid (fst (summarize_binary_market answers_nothing
                    (no_yes_priced ["tokA"]) ∅ [])) = Some 0.8%float.
Proof.
  split.
  - apply (outcome_price_follows_reordered_labels answers_nothing
             (no_yes_priced ["tokA"; "tokB"]) [] "No" "Yes" 0.2%float 0.8%float []);
      [intros; reflexivity | vm_compute; reflexivity ..].
  - apply (outcome_price_follows_reordered_labels answers_nothing
             (no_yes_priced ["tokA"]) [] "No" "Yes" 0.2%float 0.8%float []);
      [intros; reflexivity | vm_compute; reflexivity ..].
Defined.

End SummarizeMoreExamples.

(** ** pull_30day.py: the listing and the pipeline *)

Section ListingProperties.
Import Py PyText PyVal Pull30day Pipeline.
Local Open Scope string_scope.
Variable window_days_ahead : Z -> Z -> string * string.
Variable _fetch_markets : Params -> outcome (list Market).

Ltac lookup_param :=
  repeat first
    [ rewrite lookup_insert_eq
    | rewrite lookup_insert_ne by discriminate
    | rewrite lookup_singleton_eq
    | rewrite lookup_singleton_ne by discriminate ];
  reflexivity.

(** When the first request, which asks the service to leave out the closed
    markets, finds nothing, the listing is asked again over the window with
    the doubled padding and without any condition on [closed] or
    [acceptingOrders]; what comes back is then filtered on the client to
    the open markets that accept orders.  The filter is applied whether or
    not [require_accepting] was set. *)
Theorem empty_listing_is_retried_and_filtered (days_ahead pad_days limit : Z)
    (require_accepting : bool) (wider : list Market) :
  (forall params, params !! "closed" = Some "false" ->
                  _fetch_markets params = Returned []) ->
  (forall params,
     params !! "closed" = None -> params !! "acceptingOrders" = None ->
     params !! "end_date_min" = Some (fst (window_days_ahead days_ahead (pad_days * 2))) ->
     params !! "end_date_max" = Some (snd (window_days_ahead days_ahead (pad_days * 2))) ->
     _fetch_markets params = Returned wider) ->
  get_markets_due_in window_days_ahead _fetch_markets
    days_ahead pad_days limit require_accepting =
  Returned (filter (fun m => open_and_accepting m = true) wider).
Proof.
  intros Hfirst Hretry. unfold get_markets_due_in.
  destruct (window_days_ahead days_ahead pad_days) as [end_min end_max].
  destruct (window_days_ahead days_ahead (pad_days * 2)) as [end_min2 end_max2].
  cbn [fst snd] in Hretry.
  match goal with
  | |- mbind _ (_fetch_markets ?params) = _ =>
      rewrite (Hfirst params) by (destruct require_accepting; lookup_param)
  end.
  cbn [mbind outcome_bind Py.bind].
  rewrite Hretry by lookup_param.
  reflexivity.
Qed.

(** A first listing that is not empty is returned as the service gave it,
    without the client-side filter. *)
Theorem nonempty_listing_is_returned_as_is (days_ahead pad_days limit : Z)
    (require_accepting : bool) (m : Market) (rest : list Market) :
  (forall params, params !! "closed" = Some "false" ->
                  params !! "acceptingOrders" =
                    (if require_accepting then Some "true" else None) ->
                  _fetch_markets params = Returned (m :: rest)) ->
  get_markets_due_in window_days_ahead _fetch_markets
    days_ahead pad_days limit require_accepting = Returned (m :: rest).
Proof.
  intros Hfirst. unfold get_markets_due_in.
  destruct (window_days_ahead days_ahead pad_days) as [end_min end_max].
  match goal with
  | |- mbind _ (_fetch_markets ?params) = _ =>
      rewrite (Hfirst params) by (destruct require_accepting; lookup_param)
  end.
  reflexivity.
Qed.

End ListingProperties.

Section PipelineProperties.
Import Py PyText PyVal Pull30day Pipeline.
Local Open Scope string_scope.
Context `{Library}.

Lemma dict_fromkeys_acc (l acc : list string) :
  let keys :=
    fold_left (fun keys x => if bool_decide (x ∈ keys) then keys
                             else (keys ++ [x])%list) l acc in
  (NoDup acc -> NoDup keys) /\ (forall x, x ∈ keys <-> x ∈ acc \/ x ∈ l).
Proof.
  revert acc. induction l as [|a l IH]; intros acc; cbn.
  - split; [tauto|]. intros x. rewrite elem_of_nil. tauto.
  - destruct (IH (if bool_decide (a ∈ acc) then acc else (acc ++ [a])%list))
      as [IHn IHm].
    split.
    + intros Hnd. apply IHn. case_bool_decide; [exact Hnd|].
      apply NoDup_app. split; [exact Hnd|]. split; [|apply NoDup_singleton].
      intros x Hx Hx'. apply list_elem_of_singleton in Hx'. subst. tauto.
    + intros x. rewrite IHm, elem_of_cons. case_bool_decide.
      * split; [tauto|]. intros [?|[->|?]]; tauto.
      * rewrite elem_of_app, list_elem_of_singleton. tauto.
Qed.

Lemma elem_of_concat_fmap {A : Type} (f : A -> list string) (l : list A)
    (x : string) :
  x ∈ concat (f <$> l) <-> exists a, a ∈ l /\ x ∈ f a.
Proof.
  induction l as [|a l IH]; cbn.
  - rewrite elem_of_nil. split; [tauto|]. intros (a & Ha & _).
    apply elem_of_nil in Ha. exact Ha.
  - rewrite elem_of_app, IH. split.
    + intros [Hx|(b & Hb & Hx)].
      * exists a. split; [left|exact Hx].
      * exists b. split; [right; exact Hb|exact Hx].
    + intros (b & Hb & Hx). apply elem_of_cons in Hb.
      destruct Hb as [->|Hb]; [left; exact Hx|right; eauto].
Qed.

Lemma all_token_ids_members (mkts : list Market) (t : string) :
  t ∈ all_token_ids mkts <->
  exists m, m ∈ mkts /\ t ∈ parse_token_ids (parse_token_ids_field m).
Proof.
  unfold all_token_ids, dict_fromkeys.
  pose proof (dict_fromkeys_acc
                (concat ((fun m => parse_token_ids (parse_token_ids_field m)) <$> mkts))
                []) as [_ Hm].
  rewrite Hm, elem_of_nil, elem_of_concat_fmap. tauto.
Qed.

(** The identifiers sent to the bulk request hold no identifier twice, and
    they are exactly the identifiers of the given markets. *)
Theorem all_token_ids_distinct_and_complete (mkts : list Market) :
  NoDup (all_token_ids mkts) /\
  forall t, t ∈ all_token_ids mkts <->
            exists m, m ∈ mkts /\ t ∈ parse_token_ids (parse_token_ids_field m).
Proof.
  split; [|apply all_token_ids_members].
  unfold all_token_ids, dict_fromkeys.
  apply (dict_fromkeys_acc
           (concat ((fun m => parse_token_ids (parse_token_ids_field m)) <$> mkts))
           []), NoDup_nil_2.
Qed.

Lemma yes_first_snd (outs tids : list string) :
  forall t, t ∈ snd (yes_first outs tids) -> t ∈ tids.
Proof.
  intros t. unfold yes_first.
  destruct outs as [|o0 [|o1 [|o2 outs]]], tids as [|t0 [|t1 [|t2 tids]]];
    cbn [snd]; try tauto.
  destruct (_ && _); cbn [snd]; [|tauto].
  rewrite !elem_of_cons. tauto.
Qed.

Lemma canonical_tids_subset (m : Market) (t : string) :
  t ∈ canonical_tids m -> t ∈ parse_token_ids (parse_token_ids_field m).
Proof.
  unfold canonical_tids. intros Ht. apply yes_first_snd in Ht.
  unfold first_two in Ht. destruct (2 <=? _)%nat; [|exact Ht].
  apply elem_of_take in Ht. destruct Ht as (i & Hi & _).
  apply list_elem_of_lookup. eauto.
Qed.

Variable respond : list string -> string -> Quote.

(** The run over the markets: one summary for each market, in order, and
    the single queries of each added to the log. *)
Lemma summarize_all_spec (mkts : list Market) (price_map : PriceMap)
    (log : list string) :
  Forall2 (fun s m => id s = get m "id" /\ question s = get m "question" /\
                      binary s = true /\
                      token_id (yes s) = canonical_tids m !! 0%nat /\
                      token_id (no s) = canonical_tids m !! 1%nat)
    (fst (summarize_all respond mkts price_map log)) mkts /\
  snd (summarize_all respond mkts price_map log) =
    (log ++ concat ((fun m => single_queries m price_map) <$> mkts))%list.
Proof.
  revert log. induction mkts as [|m mkts IH]; intros log.
  - cbn. split; [constructor | rewrite app_nil_r; reflexivity].
  - cbn [summarize_all fmap list_fmap concat].
    unfold mbind, Net_bind, net_bind, net_ret.
    pose proof (summarize_binary_market_log respond m price_map log) as Hlog.
    pose proof (summarize_binary_market_fields respond m price_map log) as Hf.
    destruct (summarize_binary_market_spec respond m price_map log)
      as (s' & Hrun & Hy & Hn & _).
    cbv zeta in Hf. rewrite Hrun in Hlog, Hf. cbn [fst snd] in Hlog, Hf.
    rewrite Hrun. rewrite Hlog.
    destruct (IH (log ++ single_queries m price_map)%list) as [IHs IHl].
    destruct (summarize_all respond mkts price_map
                (log ++ single_queries m price_map)%list) as [out l2].
    cbn [fst snd] in *. split.
    + constructor; [|exact IHs]. tauto.
    + rewrite IHl, <- (assoc_L (++)). reflexivity.
Qed.

Lemma all_single_queries (mkts : list Market) (price_map : PriceMap) :
  let queries := concat ((fun m => single_queries m price_map) <$> mkts) in
  (length queries <= 2 * length mkts)%nat /\
  Forall (fun t => t ∈ all_token_ids mkts /\
                   unquoted (default no_quote (price_map !! t)) = true) queries.
Proof.
  cbv zeta. split.
  - induction mkts as [|m mkts IH]; cbn [fmap list_fmap concat length]; [lia|].
    rewrite length_app. pose proof (single_queries_length m price_map).
    cbn [fmap] in IH. lia.
  - apply Forall_forall. intros t Ht.
    apply elem_of_concat_fmap in Ht. destruct Ht as (m & Hm & Ht).
    pose proof (single_queries_needed m price_map) as Hneeded.
    rewrite Forall_forall in Hneeded. destruct (Hneeded t Ht) as (Hc & _ & Hu).
    split; [|exact Hu].
    apply (all_token_ids_members mkts). exists m. split; [exact Hm|].
    apply canonical_tids_subset. exact Hc.
Qed.

Variable fetch_prices_bulk : list string -> outcome PriceMap.

(** When the bulk request succeeds, the pull returns one summary for each
    binary Yes/No market of the listing, in the order of the listing and
    marked as binary.  It makes at most two single queries for each of
    them; every single query is for an identifier that was part of the
    bulk request and came back without a BUY, a SELL or a MID. *)
Theorem one_summary_per_binary_market (listing : list Market)
    (log : list string) (price_map : PriceMap) :
  fetch_prices_bulk (all_token_ids (binary_markets listing)) = Returned price_map ->
  exists out queries,
    pull_from_listing respond fetch_prices_bulk listing log =
      Returned (out, (log ++ queries)%list) /\
    Forall2 (fun s m => id s = get m "id" /\ question s = get m "question" /\
                        binary s = true /\
                        token_id (yes s) = canonical_tids m !! 0%nat /\
                        token_id (no s) = canonical_tids m !! 1%nat)
      out (filter (fun m => is_binary_yes_no m = true) listing) /\
    (length queries <= 2 * length out)%nat /\
    Forall (fun t => t ∈ all_token_ids (binary_markets listing) /\
                     unquoted (default no_quote (price_map !! t)) = true) queries.
Proof.
  intros Hbulk. unfold pull_from_listing.
  fold (binary_markets listing). set (mkts := binary_markets listing) in *.
  assert (Hrun : exists pm,
            match all_token_ids mkts with
            | [] => Returned ∅
            | _ => fetch_prices_bulk (all_token_ids mkts)
            end = Returned pm /\
            (all_token_ids mkts <> [] -> pm = price_map)).
  { destruct (all_token_ids mkts) eqn:Hids.
    - exists ∅. split; [reflexivity|]. tauto.
    - exists price_map. split; [exact Hbulk|]. tauto. }
  destruct Hrun as (pm & -> & Hpm). cbn [mbind outcome_bind Py.bind].
  destruct (summarize_all_spec mkts pm log) as [Hs Hl].
  destruct (all_single_queries mkts pm) as [Hlen Hq].
  exists (fst (summarize_all respond mkts pm log)),
         (concat ((fun m => single_queries m pm) <$> mkts)).
  split; [rewrite <- Hl; destruct (summarize_all _ _ _ _); reflexivity|].
  split; [exact Hs|].
  split; [rewrite (Forall2_length _ _ _ Hs); exact Hlen|].
  eapply Forall_impl; [exact Hq|]. intros t [Hin Hu]. split; [exact Hin|].
  rewrite <- Hpm; [exact Hu|]. intros Hnil. rewrite Hnil in Hin.
  apply elem_of_nil in Hin. exact Hin.
Qed.

(** When no binary market of the listing carries a token identifier, the
    pull makes no request for quotes at all, neither in bulk nor for a
    single token, and still returns one summary for each binary market.
    It does so whatever the bulk service would have answered. *)
Theorem no_identifiers_no_requests (listing : list Market) (log : list string) :
  Forall (fun m => is_binary_yes_no m = true ->
                   parse_token_ids (parse_token_ids_field m) = []) listing ->
  exists out,
    pull_from_listing respond fetch_prices_bulk listing log = Returned (out, log) /\
    length out = length (binary_markets listing).
Proof.
  intros Hnone. unfold pull_from_listing.
  set (mkts := binary_markets listing).
  assert (Hids : all_token_ids mkts = []).
  { destruct (all_token_ids mkts) as [|t ids] eqn:Hids; [reflexivity|].
    assert (Ht : t ∈ all_token_ids mkts) by (rewrite Hids; left).
    apply all_token_ids_members in Ht. destruct Ht as (m & Hm & Ht).
    apply list_elem_of_filter in Hm. destruct Hm as [Hb Hm].
    rewrite Forall_forall in Hnone. rewrite (Hnone m Hm Hb) in Ht.
    apply elem_of_nil in Ht. destruct Ht. }
  rewrite Hids. cbn [mbind outcome_bind Py.bind].
  destruct (summarize_all_spec mkts ∅ log) as [Hs Hl].
  destruct (all_single_queries mkts ∅) as [_ Hq].
  assert (Hqs : concat ((fun m => single_queries m ∅) <$> mkts) = []).
  { destruct (concat _) as [|t qs]; [reflexivity|].
    apply Forall_cons in Hq. destruct Hq as [[Hin _] _].
    rewrite Hids in Hin. apply elem_of_nil in Hin. destruct Hin. }
  rewrite Hqs, app_nil_r in Hl.
  destruct (summarize_all respond mkts ∅ log) as [out log'].
  cbn [fst snd] in Hs, Hl. subst log'. exists out.
  split; [reflexivity | exact (Forall2_length _ _ _ Hs)].
Qed.

End PipelineProperties.

Section PipelineExamples.
Import Py PyText PyVal Pull30day Pipeline Fixtures Samples.
Local Open Scope string_scope.
#[local] Existing Instance no_parsing.

(** Nothing is found among the open markets; of the three records of the
    second listing only the open one that accepts orders is kept, although
    accepting orders was not required. *)
Lemma empty_listing_is_retried_and_filtered_witness :
  get_markets_due_in offsets finds_nothing_open 30 7 200 false =
  Returned [open_market].
Proof.
  rewrite (empty_listing_is_retried_and_filtered offsets finds_nothing_open
             30 7 200 false [open_market; closed_market; silent_market]).
  - vm_compute. reflexivity.
  - intros params Hclosed. unfold finds_nothing_open. rewrite Hclosed.
    reflexivity.
  - intros params Hclosed _ _ _. unfold finds_nothing_open. rewrite Hclosed.
    reflexivity.
Defined.

(** The first listing holds a record that does not accept orders: it is
    returned all the same. *)
Lemma nonempty_listing_is_returned_as_is_witness :
  get_markets_due_in offsets lists_two 30 7 200 true =
  Returned [silent_market; open_market].
Proof.
  apply (nonempty_listing_is_returned_as_is offsets lists_two 30 7 200 true
           silent_market [open_market]).
  intros params _ _. reflexivity.
Defined.

(** A listing of a priced binary market, a three-way record and a binary
    market without identifiers. *)
Lemma one_summary_per_binary_market_witness :
  let listing := [priced_market; three_way_market; no_tokens_market] in
  exists out queries,
    pull_from_listing answers_nothing bulk_mid listing [] =
      Returned (out, ([] ++ queries)%list) /\
    Forall2 (fun s m => id s = get m "id" /\ question s = get m "question" /\
                        binary s = true /\
                        token_id (yes s) = canonical_tids m !! 0%nat /\
                        token_id (no s) = canonical_tids m !! 1%nat)
      out (filter (fun m => is_binary_yes_no m = true) listing) /\
    (length queries <= 2 * length out)%nat /\
    Forall (fun t => t ∈ all_token_ids (binary_markets listing) /\
                     unquoted (default no_quote (yes_mid_only !! t)) = true) queries.
Proof.
  apply (one_summary_per_binary_market answers_nothing bulk_mid
           [priced_market; three_way_market; no_tokens_market] [] yes_mid_only).
  reflexivity.
Defined.

(** Neither record carries a token identifier: the bulk service, which is
    out of service, is not asked, and no single query is made. *)
Lemma no_identifiers_no_requests_witness :
  exists out,
    pull_from_listing answers_mid bulk_down [no_tokens_market; three_way_market] [] =
      Returned (out, []) /\
    length out = length (binary_markets [no_tokens_market; three_way_market]).
Proof.
  apply (no_identifiers_no_requests answers_mid bulk_down
           [no_tokens_market; three_way_market] []).
  repeat constructor; intros _; vm_compute; reflexivity.
Defined.

End PipelineExamples.
